(** * The MangaPark adapter and the browser session of mangascraper

    A shallow embedding of [src/functions/automateBrowser.ts] and of the
    MangaPark adapter ([search], [getMangaMeta], [getLatestUpdates],
    [getPages]).

    - [JsString], [JsNumber], [JsValue]: the JavaScript built-ins the code
      relies on. Strings are sequences of 8-bit code units; numbers are
      IEEE 754 binary64 values, carried by the standard library's
      [spec_float] with [prec = 53] and [emax = 1024], with [Number(...)],
      [/], [*], [toFixed] and the conversion to a string.
    - [Cheerio], [MangaPark]: the extraction of [search] over what its
      selectors find in a parsed document, with the module variable
      [memo] threaded through the two grouping passes.
    - [Interception]: the policy object the call sites pass.
    - [JsText], [SearchUrl], [MetaPage], [LatestPage], [Scraper]: the
      address [search] builds, what [getMangaMeta] and
      [getLatestUpdates] read from a page, and the methods on them.
    - [Effects], [Browser], [Adapter]: operations as computations over a
      trace of calls into the outside world (puppeteer, the fetch path,
      the caller's callback, the promise), which answer as a host record
      says.
    - [RunGrouping]: sibling run grouping as the specification words it.

    The properties come after the definitions. *)

From Stdlib Require Import ZArith NArith List String Ascii Bool Lia.
From Stdlib Require Import Floats.SpecFloat.
From Stdlib Require Import DecimalString.
Import ListNotations.

Local Open Scope string_scope.
Local Open Scope Z_scope.

(** ** JavaScript strings *)

Module JsString.

(** WhiteSpace and LineTerminator among the code units below 256: TAB,
    LF, VT, FF, CR, SP and NBSP. *)
Definition is_white_space (c : ascii) : bool :=
  let n := N_of_ascii c in
  ((9 <=? n) && (n <=? 13) || (n =? 32) || (n =? 160))%N.

Fixpoint trim_start (s : string) : string :=
  match s with
  | String c r => if is_white_space c then trim_start r else s
  | EmptyString => EmptyString
  end.

Fixpoint rev_string (s acc : string) : string :=
  match s with
  | EmptyString => acc
  | String c r => rev_string r (String c acc)
  end.

(** [s.trim()]. *)
Definition trim (s : string) : string :=
  rev_string (trim_start (rev_string (trim_start s) "")) "".

(** [s.split(sep)] for a separator of one code unit: every occurrence
    cuts, so the result is never empty and adjacent separators give
    empty tokens. *)
Fixpoint split (sep : ascii) (s : string) : list string :=
  match s with
  | EmptyString => [EmptyString]
  | String c r =>
      if Ascii.eqb c sep then EmptyString :: split sep r
      else match split sep r with
           | t :: ts => String c t :: ts
           | [] => [String c EmptyString]
           end
  end.

(** [s.includes(pat)]; also the truth value of [s.match(pat)] for a
    pattern string free of regular expression metacharacters. *)
Fixpoint includes (pat s : string) : bool :=
  String.prefix pat s ||
  match s with
  | EmptyString => false
  | String _ r => includes pat r
  end.

(** [a || b] on strings where [undefined] and the empty string are
    falsy. *)
Definition or_else (a : option string) (b : string) : string :=
  match a with
  | Some (String c r) => String c r
  | _ => b
  end.

(** [a ?? b]. *)
Definition coalesce (a : option string) (b : string) : string :=
  match a with
  | Some s => s
  | None => b
  end.

(** What a template literal prints for a string or [undefined]. *)
Definition template (a : option string) : string :=
  match a with
  | Some s => s
  | None => "undefined"
  end.

End JsString.

(** ** JavaScript numbers *)

Module JsNumber.

Import JsString.

Definition prec : Z := 53.
Definition emax : Z := 1024.

Definition number := spec_float.

Definition NaN : number := S754_nan.
Definition pos_zero : number := S754_zero false.
Definition infinity (neg : bool) : number := S754_infinity neg.

(** [x / y] and [x * y] on Number values. *)
Definition div (x y : number) : number := SFdiv prec emax x y.
Definition mul (x y : number) : number := SFmul prec emax x y.
Definition ltb (x y : number) : bool := SFltb x y.
Definition eqb (x y : number) : bool := SFeqb x y.

(** The Number value for an integer (round to nearest, ties to even). *)
Definition of_Z (z : Z) : number := binary_normalize prec emax z 0 false.

(** The Number value for the mathematical value [digits * 10 ^ exp10],
    negated when [neg]: exact integer rounding for a non-negative
    exponent, a correctly rounded quotient otherwise. *)
Definition of_decimal (neg : bool) (digits : N) (exp10 : Z) : number :=
  match digits with
  | N0 => S754_zero neg
  | Npos d =>
      if 0 <=? exp10
      then binary_normalize prec emax
             ((if neg then Z.neg d else Z.pos d) * 10 ^ exp10) 0 neg
      else SFdiv prec emax (S754_finite neg d 0)
             (S754_finite false (Z.to_pos (10 ^ (- exp10))) 0)
  end.

(** *** StringToNumber *)

(** The value of a digit in a radix up to 16, [None] for any other
    code unit. *)
Definition digit_value (radix : N) (c : ascii) : option N :=
  let n := N_of_ascii c in
  let v :=
    if ((48 <=? n) && (n <=? 57))%N then Some (n - 48)%N
    else if ((97 <=? n) && (n <=? 102))%N then Some (n - 87)%N
    else if ((65 <=? n) && (n <=? 70))%N then Some (n - 55)%N
    else None in
  match v with
  | Some d => if (d <? radix)%N then Some d else None
  | None => None
  end.

(** Reads the longest prefix of digits: its value, its length and the
    rest of the string. *)
Fixpoint read_digits (radix : N) (s : string) (acc : N) (len : nat)
  : N * nat * string :=
  match s with
  | String c r =>
      match digit_value radix c with
      | Some d => read_digits radix r (acc * radix + d)%N (S len)
      | None => (acc, len, s)
      end
  | EmptyString => (acc, len, s)
  end.

(** ExponentPart, optional, up to the end of the string. *)
Definition parse_exponent (s : string) : option Z :=
  match s with
  | EmptyString => Some 0
  | String c r =>
      if (Ascii.eqb c "e" || Ascii.eqb c "E")%bool then
        let '(neg, r1) :=
          match r with
          | String "-" r' => (true, r')
          | String "+" r' => (false, r')
          | _ => (false, r)
          end in
        match read_digits 10 r1 0%N 0%nat with
        | (_, O, _) => None
        | (v, S _, EmptyString) =>
            Some (if neg then - Z.of_N v else Z.of_N v)
        | _ => None
        end
      else None
  end.

(** StrUnsignedDecimalLiteral. *)
Definition parse_unsigned_decimal (neg : bool) (s : string)
  : option number :=
  if String.eqb s "Infinity" then Some (infinity neg)
  else
    let '(ip, n1, r1) := read_digits 10 s 0%N 0%nat in
    match r1 with
    | String "." r2 =>
        let '(fp, n2, r3) := read_digits 10 r2 0%N 0%nat in
        match n1, n2 with
        | O, O => None
        | _, _ =>
            match parse_exponent r3 with
            | Some e =>
                Some (of_decimal neg (ip * 10 ^ N.of_nat n2 + fp)%N
                        (e - Z.of_nat n2))
            | None => None
            end
        end
    | _ =>
        match n1 with
        | O => None
        | S _ =>
            match parse_exponent r1 with
            | Some e => Some (of_decimal neg ip e)
            | None => None
            end
        end
    end.

(** NonDecimalIntegerLiteral: [0x], [0o] and [0b] prefixes, unsigned. *)
Definition parse_non_decimal (s : string) : option number :=
  match s with
  | String "0" (String c r) =>
      let radix :=
        if (Ascii.eqb c "x" || Ascii.eqb c "X")%bool then Some 16%N
        else if (Ascii.eqb c "o" || Ascii.eqb c "O")%bool then Some 8%N
        else if (Ascii.eqb c "b" || Ascii.eqb c "B")%bool then Some 2%N
        else None in
      match radix with
      | Some rx =>
          match read_digits rx r 0%N 0%nat with
          | (v, S _, EmptyString) => Some (of_decimal false v 0)
          | _ => None
          end
      | None => None
      end
  | _ => None
  end.

(** [Number(s)] for a string [s]. *)
Definition of_string (s : string) : number :=
  let t := trim s in
  match t with
  | EmptyString => pos_zero
  | String c r =>
      match parse_non_decimal t with
      | Some v => v
      | None =>
          let res :=
            if Ascii.eqb c "-" then parse_unsigned_decimal true r
            else if Ascii.eqb c "+" then parse_unsigned_decimal false r
            else parse_unsigned_decimal false t in
          match res with
          | Some v => v
          | None => NaN
          end
      end
  end.

(** [Number(v)] for [v] a string or [undefined] ([None]). *)
Definition of_token (v : option string) : number :=
  match v with
  | Some s => of_string s
  | None => NaN
  end.

(** *** Number to string conversions *)

Definition decimal_string (n : N) : string :=
  NilZero.string_of_uint (N.to_uint n).

Fixpoint zeros (n : nat) : string :=
  match n with
  | O => EmptyString
  | S k => String "0" (zeros k)
  end.

(** A positive finite value [m * 2 ^ e] as an exact fraction. *)
Definition fraction_of (m : positive) (e : Z) : Z * Z :=
  if 0 <=? e then (Z.pos m * 2 ^ e, 1) else (Z.pos m, 2 ^ (- e)).

(** [num / den < 10 ^ n]. *)
Definition below_pow10 (num den n : Z) : bool :=
  if 0 <=? n then num <? den * 10 ^ n else num * 10 ^ (- n) <? den.

(** The least [n] from [start] on with [num / den < 10 ^ n]. *)
Fixpoint find_exp10 (fuel : nat) (num den n : Z) : Z :=
  match fuel with
  | O => n
  | S f => if below_pow10 num den n then n
           else find_exp10 f num den (n + 1)
  end.

(** [floor (num / den / 10 ^ p)]. *)
Definition scaled_floor (num den p : Z) : Z :=
  if 0 <=? p then num / (den * 10 ^ p) else (num * 10 ^ (- p)) / den.

(** Compares [2 * num / den] with [c * 10 ^ p]. *)
Definition compare_twice (num den c p : Z) : comparison :=
  if 0 <=? p then (2 * num ?= c * 10 ^ p * den)
  else (2 * num * 10 ^ (- p) ?= c * den).

(** The digits [s] (with [k] of them) and the exponent [n] of
    Number::toString for [x = m * 2 ^ e]: the least [k] for which some
    [s * 10 ^ (n - k)] has [x] as its Number value, the [s] closest to
    [x], the even one on a tie. *)
Fixpoint shortest_digits (fuel : nat) (x : number) (num den n k : Z)
  : Z * Z * Z :=
  let p := n - k in
  let lo := scaled_floor num den p in
  let hi := lo + 1 in
  let ok_lo := eqb (of_decimal false (Z.to_N lo) p) x in
  let ok_hi := eqb (of_decimal false (Z.to_N hi) p) x in
  let pick (s : Z) := if s =? 10 ^ k then (10 ^ (k - 1), n + 1, k)
                      else (s, n, k) in
  match fuel with
  | O => pick lo
  | S f =>
      match ok_lo, ok_hi with
      | true, true =>
          match compare_twice num den (2 * lo + 1) p with
          | Lt => pick lo
          | Gt => pick hi
          | Eq => if Z.even lo then pick lo else pick hi
          end
      | true, false => pick lo
      | false, true => pick hi
      | false, false => shortest_digits f x num den n (k + 1)
      end
  end.

Definition string_take (n : nat) (s : string) : string :=
  String.substring 0 n s.
Definition string_drop (n : nat) (s : string) : string :=
  String.substring n (String.length s - n) s.

(** Number::toString of a positive finite value. *)
Definition to_string_pos (x : number) (m : positive) (e : Z) : string :=
  let '(num, den) := fraction_of m e in
  let n0 := find_exp10 700 num den (-324) in
  let '(s, n, k) := shortest_digits 17 x num den n0 1 in
  let digits := decimal_string (Z.to_N s) in
  if (k <=? n) && (n <=? 21) then digits ++ zeros (Z.to_nat (n - k))
  else if (0 <? n) && (n <=? 21) then
    string_take (Z.to_nat n) digits ++ "." ++ string_drop (Z.to_nat n) digits
  else if (-6 <? n) && (n <=? 0) then
    "0." ++ zeros (Z.to_nat (- n)) ++ digits
  else
    let ex := n - 1 in
    let sign := if ex <? 0 then "-" else "+" in
    let mant := if k =? 1 then digits
                else string_take 1 digits ++ "." ++ string_drop 1 digits in
    mant ++ "e" ++ sign ++ decimal_string (Z.to_N (Z.abs ex)).

(** Number::toString, radix 10: what a template literal prints for a
    number. *)
Definition to_string (x : number) : string :=
  match x with
  | S754_nan => "NaN"
  | S754_zero _ => "0"
  | S754_infinity neg => if neg then "-Infinity" else "Infinity"
  | S754_finite neg m e =>
      (if neg then "-" else "") ++ to_string_pos (S754_finite false m e) m e
  end.

(** The integer [n] for which [n / 10 ^ f - m * 2 ^ e] is closest to
    zero, the larger one when there are two. *)
Definition fixed_integer (f : nat) (m : positive) (e : Z) : Z :=
  let '(num, den) := fraction_of m e in
  (2 * num * 10 ^ Z.of_nat f + den) / (2 * den).

(** [10 ^ 21 <= m * 2 ^ e]. *)
Definition at_least_1e21 (m : positive) (e : Z) : bool :=
  let '(num, den) := fraction_of m e in den * 10 ^ 21 <=? num.

(** The digits of [n] with a point before the last [f] of them, zeros
    added in front up to [f + 1] digits. *)
Definition fixed_notation (f : nat) (n : Z) : string :=
  let digits := decimal_string (Z.to_N n) in
  match f with
  | O => digits
  | S _ =>
      let k := String.length digits in
      let padded := zeros (S f - k) ++ digits in
      let cut := (String.length padded - f)%nat in
      string_take cut padded ++ "." ++ string_drop cut padded
  end.

(** [x.toFixed(f)] for [0 <= f <= 100]. *)
Definition toFixed (f : nat) (x : number) : string :=
  match x with
  | S754_finite neg m e =>
      (if neg then "-" else "") ++
      (if at_least_1e21 m e then to_string_pos (S754_finite false m e) m e
       else fixed_notation f (fixed_integer f m e))
  | S754_zero _ => fixed_notation f 0
  | _ => to_string x
  end.

End JsNumber.

(** ** JavaScript primitive values, thrown values *)

Module JsValue.

(** The primitive values an untyped caller can pass where the
    declarations say [number]. *)
Inductive jsval :=
| JUndefined
| JNull
| JBoolean (b : bool)
| JNumber (n : JsNumber.number)
| JString (s : string).

(** [typeof v]. *)
Definition typeof (v : jsval) : string :=
  match v with
  | JUndefined => "undefined"
  | JNull => "object"
  | JBoolean _ => "boolean"
  | JNumber _ => "number"
  | JString _ => "string"
  end.

(** [v == null]. *)
Definition is_nullish (v : jsval) : bool :=
  match v with
  | JUndefined | JNull => true
  | _ => false
  end.

(** ToNumber. *)
Definition to_number (v : jsval) : JsNumber.number :=
  match v with
  | JUndefined => JsNumber.NaN
  | JNull => JsNumber.pos_zero
  | JBoolean b => if b then JsNumber.of_Z 1 else JsNumber.pos_zero
  | JNumber n => n
  | JString s => JsNumber.of_string s
  end.

(** [v < n] for a number [n]. *)
Definition lt_number (v : jsval) (n : JsNumber.number) : bool :=
  JsNumber.ltb (to_number v) n.

(** What a template literal prints. *)
Definition template (v : jsval) : string :=
  match v with
  | JUndefined => "undefined"
  | JNull => "null"
  | JBoolean b => if b then "true" else "false"
  | JNumber n => JsNumber.to_string n
  | JString s => s
  end.

(** A destructuring default: it replaces [undefined] only. *)
Definition with_default (v d : jsval) : jsval :=
  match v with
  | JUndefined => d
  | _ => v
  end.

(** A value thrown, or the reason of a rejected promise: a string or an
    error object with its [name] and [message]. *)
Inductive reason :=
| RString (s : string)
| RError (name message : string).

(** [String(e)]. *)
Definition reason_to_string (e : reason) : string :=
  match e with
  | RString s => s
  | RError name message =>
      match name, message with
      | EmptyString, _ => message
      | _, EmptyString => name
      | _, _ => name ++ ": " ++ message
      end
  end.

(** [Error(e)]. *)
Definition Error (e : reason) : reason :=
  RError "Error" (reason_to_string e).

End JsValue.

(** ** Cheerio collections *)

Module Cheerio.

(** [selection.map(fn).get()] for a callback that reads and writes a
    variable of its enclosing scope, here the state [S]. The callback
    answers [None] for [undefined] (the element is skipped) and
    [Some l] for an array [l], whose members are appended to the
    result. *)
Fixpoint map_get {E R S : Type} (fn : S -> E -> option (list R) * S)
  (s : S) (els : list E) : list R * S :=
  match els with
  | [] => ([], s)
  | el :: rest =>
      let '(val, s1) := fn s el in
      let '(out, s2) := map_get fn s1 rest in
      (match val with
       | Some l => (l ++ out)%list
       | None => out
       end, s2)
  end.

(** An element child of a container: its tag name and its text. *)
Record node := { tag : string; text : string }.

Definition is_a (n : node) : bool := String.eqb (tag n) "a".

(** The anchors among the children of one container, in document order,
    each with its text and with [$(el).next().is('a')]. *)
Fixpoint child_anchors (children : list node) : list (string * bool) :=
  match children with
  | [] => []
  | n :: rest =>
      let tl := child_anchors rest in
      if is_a n
      then (text n, match rest with
                    | m :: _ => is_a m
                    | [] => false
                    end) :: tl
      else tl
  end.

End Cheerio.

(** ** The MangaPark adapter: extraction *)

Module MangaPark.

Import JsString Cheerio.

(** [MangaRating]. *)
Record MangaRating := {
  sourceRating : string;
  voteCount : string;
  ratingPercentage : string;
  ratingStars : string
}.

(** [MangaParkManga]; a field read from an array past its end is
    [undefined], here [None]. *)
Record MangaParkManga := {
  title : string;
  url : string;
  authors : option (list string);
  coverImage : option string;
  genres : option (list string);
  rating : option MangaRating
}.

(** What the selectors of [search] find in a parsed document. *)
Record SearchDocument := {
  (** [href] and [title] of each [h2 > a] *)
  title_anchors : list (option string * option string);
  (** the text of each element of
      [$('div:contains("Authors/Artists") > b.pd').prevAll()], in the
      order of the collection *)
  author_siblings : list string;
  (** the element children of each [div.field.last] *)
  genre_fields : list (list node);
  (** the [title] attribute of each [div.rate] *)
  rate_titles : list (option string);
  (** the [src] attribute of each [a.cover > img] *)
  cover_images : list (option string)
}.

(** The callback of the authors pass (lines 203-211): a text that does
    not match the label is appended to [memo]; the label returns the
    buffer as one group and empties it. *)
Definition authors_callback (memo : list string) (text : string)
  : option (list (list string)) * list string :=
  if negb (includes "Authors/Artists:" text) then (None, (memo ++ [text])%list)
  else (Some [memo], []).

(** The callback of the genres pass (lines 215-223): an anchor followed
    by an anchor is appended; any other anchor returns the buffer. *)
Definition genres_callback (memo : list string) (el : string * bool)
  : option (list (list string)) * list string :=
  let '(text, next_is_a) := el in
  if next_is_a then (None, (memo ++ [text])%list)
  else (Some [memo], []).

Definition authors_pass (memo : list string) (doc : SearchDocument)
  : list (list string) * list string :=
  map_get authors_callback memo (author_siblings doc).

(** [$('div.field.last > a')] in document order. *)
Definition genre_anchors (doc : SearchDocument) : list (string * bool) :=
  flat_map child_anchors (genre_fields doc).

Definition genres_pass (memo : list string) (doc : SearchDocument)
  : list (list string) * list string :=
  map_get genres_callback memo (genre_anchors doc).

Section Rating.

(** [Number.prototype.toLocaleString], which depends on the host's
    locale. *)
Variable toLocaleString : JsNumber.number -> string.

(** The rating record built from the tokens of a label (lines 230-238
    and 311-319). *)
Definition rating_of_tokens (ratingText : list string) : MangaRating :=
  let numerator := JsNumber.of_token (nth_error ratingText 1) in
  let denominator := JsNumber.of_token (nth_error ratingText 3) in
  let voteCount := toLocaleString
                     (JsNumber.of_token (nth_error ratingText 6)) in
  {| sourceRating := "MangaPark.net";
     voteCount := voteCount;
     ratingPercentage :=
       JsNumber.toFixed 2
         (JsNumber.mul (JsNumber.div numerator denominator)
            (JsNumber.of_Z 100)) ++ "%";
     ratingStars :=
       JsNumber.to_string numerator ++ " / " ++
       JsNumber.to_string denominator |}.

(** [divEl.attr('title')?.split(' ') || []] and the record. *)
Definition mangaRating (title_attr : option string) : MangaRating :=
  rating_of_tokens
    match title_attr with
    | Some t => split " " t
    | None => []
    end.

(** The rating of [getMangaMeta] (lines 309-320), from the text of the
    cell next to the "Rating" header. *)
Definition meta_rating (td_text : string) : MangaRating :=
  rating_of_tokens (split " " (trim td_text)).

(** The body of the [try] block of [search] from the parsed document
    to [data] (lines 189-252), threading the module variable [memo]. *)
Definition search_extract (memo : list string) (doc : SearchDocument)
  : list MangaParkManga * list string :=
  let titleURLs :=
    map (fun '(href, ttl) =>
           ("https://v2.mangapark.net" ++ template href,
            or_else ttl ""))
        (title_anchors doc) in
  let '(authors, memo1) := authors_pass memo doc in
  let '(mangaGenres, memo2) := genres_pass memo1 doc in
  let ratings := map mangaRating (rate_titles doc) in
  let coverImage := map (fun src => coalesce src "") (cover_images doc) in
  let data :=
    map (fun '(i, (mangaUrl, ttl)) =>
           {| title := ttl;
              url := mangaUrl;
              authors := nth_error authors i;
              coverImage := nth_error coverImage i;
              genres := nth_error mangaGenres i;
              rating := nth_error ratings i |})
        (combine (seq 0 (List.length titleURLs)) titleURLs) in
  (data, memo2).

End Rating.

End MangaPark.

(** ** Resource interception policy *)

Module Interception.

Inductive method := block | unblock.

(** The policy object the adapters pass along with a page script:
    [{ domains?: { method, value }, resource?: { method, type } }]. *)
Record DomainRule := { domain_method : method; value : list string }.
Record ResourceRule := { resource_method : method; type : list string }.
Record Policy := {
  domains : option DomainRule;
  resource : option ResourceRule
}.

(** A candidate outgoing request. *)
Record Request := { request_url : string; resourceType : string }.

Inductive decision := allow | deny.

End Interception.

(** ** Effects: the trace of an operation, exceptions, the module state *)

Module Effects.

Import JsValue Interception.

(** What an operation delivers: [success(value)] or [failure(error)]. *)
Inductive outcome (T : Type) :=
| Success (v : T)
| Failure (e : reason).
Arguments Success {T} v.
Arguments Failure {T} e.

Inductive event (T : Type) :=
(** [readHtml(url, options, policy?, ...)]: the plain fetch path *)
| ReadHtml (url : string) (policy : option Policy)
(** [puppeteer.launch({ headless, args, ignoreHTTPSErrors: true })] *)
| Launch (headless : bool) (args : list string)
| Pages
| SetViewport (width height : Z)
| EvaluateOnNewDocument
(** [page.goto(url)], with the policy installed on the page at that
    moment *)
| Goto (url : string) (gate : option Policy)
| AddScriptTag
| WaitForSelector (selector : string)
| Evaluate
(** [browser.close()] *)
| Close
(** the caller's callback is invoked *)
| Callback (o : outcome T)
(** [res(value)] or [rej(error)] is called *)
| Settle (o : outcome T).
Arguments ReadHtml {T} url policy.
Arguments Launch {T} headless args.
Arguments Pages {T}.
Arguments SetViewport {T} width height.
Arguments EvaluateOnNewDocument {T}.
Arguments Goto {T} url gate.
Arguments AddScriptTag {T}.
Arguments WaitForSelector {T} selector.
Arguments Evaluate {T}.
Arguments Close {T}.
Arguments Callback {T} o.
Arguments Settle {T} o.

(** The state an operation runs in: the module variable [memo] of the
    adapter (line 82), the policy installed on the current page, and
    what happened so far, oldest first. *)
Record world (T : Type) := {
  memo : list string;
  interception : option Policy;
  trace : list (event T)
}.
Arguments memo {T} w.
Arguments interception {T} w.
Arguments trace {T} w.
Arguments Build_world {T} memo interception trace.

(** The state when the module has just been loaded. *)
Definition initial (T : Type) : world T :=
  {| memo := []; interception := None; trace := [] |}.

Inductive result (A : Type) :=
| Ok (a : A)
| Throw (e : reason).
Arguments Ok {A} a.
Arguments Throw {A} e.

(** A computation: it returns or throws, and changes the state. An
    awaited promise that rejects throws. *)
Definition M (T A : Type) : Type := world T -> result A * world T.

Definition ret {T A} (a : A) : M T A := fun w => (Ok a, w).

Definition bind {T A B} (c : M T A) (k : A -> M T B) : M T B :=
  fun w =>
    match c w with
    | (Ok a, w1) => k a w1
    | (Throw e, w1) => (Throw e, w1)
    end.

Definition throw {T A} (e : reason) : M T A := fun w => (Throw e, w).

(** [try { c } catch (e) { handler }]. *)
Definition try_catch {T A} (c : M T A) (handler : reason -> M T A)
  : M T A :=
  fun w =>
    match c w with
    | (Ok a, w1) => (Ok a, w1)
    | (Throw e, w1) => handler e w1
    end.

Definition emit {T} (ev : event T) : M T unit :=
  fun w =>
    (Ok tt, {| memo := memo w;
               interception := interception w;
               trace := (trace w ++ [ev])%list |}).

(** A call into the outside world that is recorded and then returns or
    throws as the outside world decides. *)
Definition step {T} (ev : event T) (r : option reason) : M T unit :=
  bind (emit ev)
       (fun _ => match r with
                 | None => ret tt
                 | Some e => throw e
                 end).

Definition step_value {T A} (ev : event T) (r : reason + A) : M T A :=
  bind (emit ev)
       (fun _ => match r with
                 | inr a => ret a
                 | inl e => throw e
                 end).

Definition lift {T A} (r : reason + A) : M T A :=
  match r with
  | inr a => ret a
  | inl e => throw e
  end.

(** How a call of a function that gives a promise ends: it throws before
    giving one, or gives a promise that settles. *)
Inductive called (R : Type) :=
| SyncThrow (e : reason)
| Returned (settled : result R).
Arguments SyncThrow {R} e.
Arguments Returned {R} settled.

(** An [async] function: whatever its body does, the call gives a
    promise. *)
Definition async_fn {T R} (body : M T R) : world T -> called R * world T :=
  fun w => let '(r, w1) := body w in (Returned r, w1).

(** [call.finally(cleanup)] awaited: the cleanup runs once the promise
    has settled; a cleanup that throws replaces the outcome. When the
    call throws instead of giving a promise, there is nothing to attach
    the cleanup to. *)
Definition finally {T R} (call : world T -> called R * world T)
  (cleanup : M T unit) : M T R :=
  fun w =>
    match call w with
    | (SyncThrow e, w1) => (Throw e, w1)
    | (Returned r, w1) =>
        match cleanup w1 with
        | (Ok _, w2) => (r, w2)
        | (Throw e, w2) => (Throw e, w2)
        end
    end.

(** [new Promise(async (res, rej) => { body })]: the body runs; what it
    throws rejects only the promise of the [async] executor, which
    nobody holds. *)
Definition new_promise {T} (executor : M T unit) : world T -> world T :=
  fun w => snd (executor w).

(** *** Observations on a trace *)


Definition settlements {T} (tr : list (event T)) : list (outcome T) :=
  flat_map (fun ev => match ev with
                      | Settle o => [o]
                      | _ => []
                      end) tr.



Definition is_launch {T} (ev : event T) : bool :=
  match ev with
  | Launch _ _ => true
  | _ => false
  end.

Definition is_close {T} (ev : event T) : bool :=
  match ev with
  | Close => true
  | _ => false
  end.

(** How many times [browser.close()] ran. *)
Definition closes {T} (tr : list (event T)) : nat :=
  List.length (filter is_close tr).

(** The policies in force at each navigation. *)
Definition gates {T} (tr : list (event T)) : list (option Policy) :=
  flat_map (fun ev => match ev with
                      | Goto _ g => [g]
                      | _ => []
                      end) tr.

End Effects.

Declare Scope js_scope.
Delimit Scope js_scope with js.
Notation "x <- c1 ;; c2" := (Effects.bind c1 (fun x => c2))
  (at level 61, c1 at next level, right associativity) : js_scope.
Notation "c1 ;; c2" := (Effects.bind c1 (fun _ => c2))
  (at level 61, right associativity) : js_scope.

(** ** The browser session: [src/functions/automateBrowser.ts] *)

Module Browser.

Import JsValue Interception Effects.
Local Open Scope js_scope.

(** [ScrapingOptions], as far as [automateBrowser] reads it. *)
Record Proxy := { host : string; port : JsNumber.number }.
Record ScrapingOptions := {
  proxy : option Proxy;
  debug : option bool
}.

(** A page of the launched browser: how each of its methods answers.
    [R] is what the script evaluated in the page gives back. *)
Record Page (R : Type) := {
  setViewport_result : option reason;
  evaluateOnNewDocument_result : option reason;
  goto_result : string -> option reason;
  addScriptTag_result : option reason;
  waitForSelector_result : string -> option reason;
  evaluate_result : reason + R
}.
Arguments setViewport_result {R} p.
Arguments evaluateOnNewDocument_result {R} p.
Arguments goto_result {R} p url.
Arguments addScriptTag_result {R} p.
Arguments waitForSelector_result {R} p selector.
Arguments evaluate_result {R} p.

Record BrowserHandle (R : Type) := {
  pages_result : reason + list (Page R);
  close_result : option reason
}.
Arguments pages_result {R} b.
Arguments close_result {R} b.

(** The [puppeteer] and [random-useragent] packages: what [launch]
    answers, and the text the template literal prints for the user agent
    drawn. *)
Record Puppeteer (R : Type) := {
  launch_result : reason + BrowserHandle R;
  randomUserAgent : string
}.
Arguments launch_result {R} p.
Arguments randomUserAgent {R} p.

Section Session.

Context {T R : Type}.

(** [puppeteer.launch]: a new browser, whose page has no request
    interception. *)
Definition launch (pup : Puppeteer R) (headless : bool)
  (args : list string) : M T (BrowserHandle R) :=
  fun w =>
    step_value (Launch headless args) (launch_result pup)
      {| memo := memo w; interception := None; trace := trace w |}.

Definition pages (browser : BrowserHandle R) : M T (list (Page R)) :=
  step_value Pages (pages_result browser).

Definition close (browser : BrowserHandle R) : M T unit :=
  step Close (close_result browser).

Definition setViewport (page : Page R) (width height : Z) : M T unit :=
  step (SetViewport width height) (setViewport_result page).

Definition evaluateOnNewDocument (page : Page R) : M T unit :=
  step EvaluateOnNewDocument (evaluateOnNewDocument_result page).

Definition goto (page : Page R) (url : string) : M T unit :=
  fun w => step (Goto url (interception w)) (goto_result page url) w.

Definition addScriptTag (page : Page R) : M T unit :=
  step AddScriptTag (addScriptTag_result page).

Definition waitForSelector (page : Page R) (selector : string)
  : M T unit :=
  step (WaitForSelector selector) (waitForSelector_result page selector).

Definition evaluate (page : Page R) : M T R :=
  step_value Evaluate (evaluate_result page).

(** What Puppeteer does with a request the page makes while a policy
    [gate] is or is not installed on it: without request interception
    switched on ([page.setRequestInterception(true)]) every request goes
    through; with it, the handler registered on the page answers. No
    handler is among the sources, [handler] stands for any. *)
Definition request_decision (handler : Policy -> Request -> decision)
  (gate : option Policy) (r : Request) : decision :=
  match gate with
  | None => allow
  | Some p => handler p r
  end.

(** [AutomatedCallback<R>]: the page script. *)
Definition AutomatedCallback : Type :=
  Page R -> world T -> called R * world T.

(** [[...].filter((item) => Boolean(item))] on strings and [false]
    ([None]). *)
Definition filter_truthy (items : list (option string)) : list string :=
  flat_map (fun item => match item with
                        | Some (String c r) => [String c r]
                        | _ => []
                        end) items.

Definition puppeteer_args (options : ScrapingOptions) (ua : string)
  : list string :=
  let args_proxy_server :=
    match proxy options with
    | Some p => Some ("--proxy-server=" ++ host p ++ ":" ++
                      JsNumber.to_string (port p))
    | None => None
    end in
  filter_truthy
    [ args_proxy_server;
      Some "--no-sandbox";
      Some "--disable-setuid-sandbox";
      Some "--disable-accelerated-2d-canvas";
      Some "--no-zygote";
      Some "--renderer-process-limit=1";
      Some "--no-first-run";
      Some "--ignore-certificate-errors";
      Some "--ignore-certificate-errors-spki-list";
      Some "--disable-dev-shm-usage";
      Some "--disable-infobars";
      Some "--lang=en-US,en";
      Some "--window-size=1920x1080";
      Some "--disable-extensions";
      Some ("--user-agent=" ++ ua) ].

(** Reading a method of [undefined], when the browser has no page. *)
Definition no_page : reason :=
  RError "TypeError"
    "Cannot read properties of undefined (reading 'setViewport')".

(** [automateBrowser(options, callback)] (lines 8-39). *)
Definition automateBrowser (pup : Puppeteer R)
  (options : ScrapingOptions) (callback : AutomatedCallback) : M T R :=
  let debug := match debug options with
               | Some b => b
               | None => false
               end in
  let puppeteer_args := puppeteer_args options (randomUserAgent pup) in
  try_catch
    (browser <- launch pup (negb debug) puppeteer_args ;;
     all <- pages browser ;;
     match nth_error all 0 with
     | None => throw no_page
     | Some page =>
         setViewport page 1920 1080 ;;
         evaluateOnNewDocument page ;;
         finally (callback page) (close browser)
     end)
    (fun e => throw (Error e)).

(** A call with a third argument, as the adapters write it
    ([automateBrowser(this.options, script, policy)]): the function
    declares two parameters and never reads [arguments], so the policy
    goes nowhere. *)
Definition automateBrowser_with_policy (pup : Puppeteer R)
  (options : ScrapingOptions) (callback : AutomatedCallback)
  (policy : Policy) : M T R :=
  automateBrowser pup options callback.

End Session.

End Browser.

(** ** The MangaPark adapter: operations *)

Module Adapter.

Import JsValue Interception Effects Browser MangaPark.
Local Open Scope js_scope.

(** [MangaCallback<T>]: the caller's function [(error?, result?) => void];
    [None] when it returns, [Some e] when it throws [e]. *)
Definition MangaCallback (T : Type) : Type := outcome T -> option reason.

(** The default callback, [() => void 0]. *)
Definition no_callback {T : Type} : MangaCallback T := fun _ => None.

Definition invoke {T} (callback : MangaCallback T) (o : outcome T)
  : M T unit :=
  step (Callback o) (callback o).

(** Modelled from the spec: [functions/success.ts] is not among the
    sources. [success(value, callback, res)] invokes the callback with
    the outcome, then resolves the promise with the same outcome. *)
Definition success {T} (data : T) (callback : MangaCallback T)
  : M T unit :=
  invoke callback (Success data) ;; emit (Settle (Success data)).

(** Modelled from the spec: [functions/failure.ts] is not among the
    sources. [failure(error, callback, rej)] invokes the callback with
    the outcome, then rejects the promise with the same outcome. *)
Definition failure {T} (e : reason) (callback : MangaCallback T)
  : M T unit :=
  invoke callback (Failure e) ;; emit (Settle (Failure e)).

Definition quote : string := String (ascii_of_nat 34) EmptyString.

Definition page_must_be_a_number : reason :=
  RString (quote ++ "page" ++ quote ++ " must be a number").
Definition missing_page : reason :=
  RString ("Missing argument " ++ quote ++ "page" ++ quote ++
           " is required").
Definition missing_url : reason :=
  RString ("Missing argument " ++ quote ++ "url" ++ quote ++
           " is required").
Definition page_below_one : reason :=
  RString ("Argument " ++ quote ++ "page" ++ quote ++
           " must be greater than or equal to 1").

Definition BLOCKED_REQUESTS : list string :=
  [ "https://v2.mangapark.net/cdn-cgi/scripts/5c5dd728/cloudflare-static/email-decode.min.js";
    "https://cdnjs.cloudflare.com/ajax/libs/jqueryui/";
    "https://cdnjs.cloudflare.com/ajax/libs/jquery_lazyload/";
    "https://cdnjs.cloudflare.com/ajax/libs/axios/";
    "https://static.mangapark.net/v2/js/global.js";
    "https://static.mangapark.net/v2/js/manga-global.js";
    "https://v2.mangapark.net/book-list/";
    "https://mangapark.net/misc/";
    "https://mangaparkcom.disqus.com/";
    "https://www.googletagmanager.com/";
    "https://hm.baidu.com/";
    "https://s7.addthis.com/";
    "https://tags.crwdcntrl.net/";
    "https://cdn.run-syndicate.com/";
    "https://go.bebi.com/";
    "https://st.bebi.com/";
    "https://run-syndicate.com/";
    "https://platform.bidgear.com/" ].

(** The policy [getPages] passes with its page script (lines 563-566). *)
Definition getPages_policy : Policy :=
  {| domains := Some {| domain_method := block; value := BLOCKED_REQUESTS |};
     resource := Some {| resource_method := unblock;
                         type := ["document"; "script"] |} |}.

(** The policy [getMangaMeta] passes (line 291). *)
Definition getMangaMeta_policy : Policy :=
  {| domains := None;
     resource := Some {| resource_method := unblock;
                         type := ["document"] |} |}.

(** The policy [getLatestUpdates] passes to [readHtml] (line 475). *)
Definition getLatestUpdates_policy : Policy :=
  {| domains := None;
     resource := Some {| resource_method := unblock;
                         type := ["document"; "image"] |} |}.

(** Where [search] goes after destructuring [filters] (line 127) and
    the two checks of lines 184-185. *)
Inductive search_branch :=
| PageNotANumber
| PageMissing
| FetchResults.

Definition search_guard (filters_page : jsval) : search_branch :=
  let page := with_default filters_page (JNumber (JsNumber.of_Z 1)) in
  if negb (String.eqb (typeof page) "number") then PageNotANumber
  else if is_nullish page then PageMissing
  else FetchResults.

Section Operations.

(** The parsed document [readHtml] gives ([functions/readHtml.ts] is
    not among the sources), what the selectors of [search] find in
    it, and the records the loop of [getLatestUpdates] (lines 478-501)
    builds from it. *)
Variable Document : Type.
Variable readHtml : string -> reason + Document.
Variable select_search : Document -> SearchDocument.
Variable MangaParkLatestHotManga : Type.
Variable extract_latest : Document -> list MangaParkLatestHotManga.

(** The record [getMangaMeta] builds from the page's HTML
    (lines 294-447), or what that code throws. *)
Variable MangaParkMeta : Type.
Variable extract_meta : string -> reason + MangaParkMeta.

Variable toLocaleString : JsNumber.number -> string.

(** [this.options]. *)
Variable options : ScrapingOptions.

Definition read_html {T} (url : string) (policy : option Policy)
  : M T Document :=
  step_value (ReadHtml url policy) (readHtml url).

(** The extraction of [search], on the module variable [memo]. *)
Definition extract_search {T} (doc : SearchDocument)
  : M T (list MangaParkManga) :=
  fun w =>
    let '(data, memo') := search_extract toLocaleString (memo w) doc in
    (Ok data, {| memo := memo';
                 interception := interception w;
                 trace := trace w |}).

(** [search(query, filters, callback)] (lines 112-259); [url] is the
    address lines 130-181 build from the query and the filters, and
    [filters_page] is [filters.page]. *)
Definition search (url : string) (filters_page : jsval)
  (callback : MangaCallback (list MangaParkManga))
  : world (list MangaParkManga) -> world (list MangaParkManga) :=
  new_promise
    match search_guard filters_page with
    | PageNotANumber => failure page_must_be_a_number callback
    | PageMissing => failure missing_page callback
    | FetchResults =>
        try_catch
          (doc <- read_html url None ;;
           data <- extract_search (select_search doc) ;;
           success data callback)
          (fun e => failure e callback)
    end.

(** The page script of [getMangaMeta] (lines 286-290). *)
Definition getMangaMeta_script (url : string) (page : Page string)
  : M MangaParkMeta string :=
  goto page url ;;
  waitForSelector page "h2" ;;
  evaluate page.

(** [getMangaMeta(url, callback)] (lines 275-455); [None] is a [url]
    that is [null] or [undefined]. *)
Definition getMangaMeta (pup : Puppeteer string) (url : option string)
  (callback : MangaCallback MangaParkMeta)
  : world MangaParkMeta -> world MangaParkMeta :=
  new_promise
    match url with
    | None => failure missing_url callback
    | Some u =>
        try_catch
          (html <- automateBrowser_with_policy pup options
                     (fun page => async_fn (getMangaMeta_script u page))
                     getMangaMeta_policy ;;
           data <- lift (extract_meta html) ;;
           success data callback)
          (fun e => failure e callback)
    end.

(** [getLatestUpdates(options, callback)] (lines 464-508);
    [arg] is [None] when the first argument is left out, and the
    [page] property of the object passed otherwise. *)
Definition getLatestUpdates (arg : option jsval)
  (callback : MangaCallback (list MangaParkLatestHotManga))
  : world (list MangaParkLatestHotManga)
    -> world (list MangaParkLatestHotManga) :=
  let page := match arg with
              | None => JNumber (JsNumber.of_Z 1)
              | Some p => p
              end in
  new_promise
    (if lt_number page (JsNumber.of_Z 1)
     then failure page_below_one callback
     else
       try_catch
         (doc <- read_html
                   ("https://v2.mangapark.net/latest/" ++ template page)
                   (Some getLatestUpdates_policy) ;;
          success (extract_latest doc) callback)
         (fun e => failure e callback)).

(** The page script of [getPages] (lines 552-562). *)
Definition getPages_script (url : string) (page : Page (list string))
  : M (list string) (list string) :=
  goto page url ;;
  addScriptTag page ;;
  waitForSelector page "a.img-link" ;;
  evaluate page.

(** [getPages(url, callback)] (lines 524-573). *)
Definition getPages (pup : Puppeteer (list string)) (url : option string)
  (callback : MangaCallback (list string))
  : world (list string) -> world (list string) :=
  new_promise
    match url with
    | None => failure missing_url callback
    | Some u =>
        try_catch
          (data <- automateBrowser_with_policy pup options
                     (fun page => async_fn (getPages_script u page))
                     getPages_policy ;;
           success data callback)
          (fun e => failure e callback)
    end.

End Operations.

End Adapter.

(** ** Run grouping as the specification words it *)

Module RunGrouping.

Section Walk.

Context {E : Type}.
Variable is_marker : E -> bool.
Variable text_of : E -> string.

(** The specification's algorithm, on a buffer of its own: a sibling
    that is not a marker is appended to the pending buffer; a marker
    closes the buffer as one group and resets it; at the end of the
    input the pending buffer is dropped. *)
Fixpoint walk (buffer : list string) (els : list E)
  : list (list string) :=
  match els with
  | [] => []
  | el :: rest =>
      if is_marker el then buffer :: walk [] rest
      else walk (buffer ++ [text_of el])%list rest
  end.

(** [groupBySiblingMarker]: every call starts from an empty buffer. *)
Definition groupBySiblingMarker (els : list E) : list (list string) :=
  walk [] els.

(** What the buffer holds when the input ends. *)
Fixpoint pending (buffer : list string) (els : list E) : list string :=
  match els with
  | [] => buffer
  | el :: rest =>
      if is_marker el then pending [] rest
      else pending (buffer ++ [text_of el])%list rest
  end.

(** The sequence cut at its markers: the texts before each marker, in
    order, and the texts after the last marker. *)
Fixpoint runs (els : list E) : list (list string) * list string :=
  match els with
  | [] => ([], [])
  | el :: rest =>
      let '(gs, tl) := runs rest in
      if is_marker el then ([] :: gs, tl)
      else match gs with
           | [] => ([], text_of el :: tl)
           | g :: gs' => ((text_of el :: g) :: gs', tl)
           end
  end.

End Walk.

(** The marker of the authors pass: a text matching the label. *)
Definition authors_marker (text : string) : bool :=
  JsString.includes "Authors/Artists:" text.

(** The marker of the genres pass: an anchor not followed by an anchor. *)
Definition genres_marker (el : string * bool) : bool := negb (snd el).

End RunGrouping.

(** ** More JavaScript string built-ins *)

Module JsText.

Import JsString.

(** [array.join(sep)] on strings. *)
Fixpoint join (sep : string) (items : list string) : string :=
  match items with
  | [] => EmptyString
  | [x] => x
  | x :: rest => x ++ sep ++ join sep rest
  end.

(** [array.filter((item) => item.length !== 0)]. *)
Definition non_empty (items : list string) : list string :=
  filter (fun item => negb (String.eqb item "")) items.

(** [s.slice(n)] and [s.substring(n)] for [n >= 0]. *)
Fixpoint drop (n : nat) (s : string) : string :=
  match n, s with
  | O, _ => s
  | S k, String _ r => drop k r
  | S _, EmptyString => EmptyString
  end.

(** [s.slice(0, -1)]: all but the last code unit. *)
Fixpoint drop_last (s : string) : string :=
  match s with
  | EmptyString => EmptyString
  | String _ EmptyString => EmptyString
  | String c r => String c (drop_last r)
  end.

(** [array.slice(0, -1)]. *)
Definition init_of {A : Type} (items : list A) : list A := removelast items.

(** The lower case of a code unit below 256: [A-Z], and the letters
    of U+00C0 to U+00DE apart from the multiplication sign. *)
Definition lower_char (c : ascii) : ascii :=
  let n := N_of_ascii c in
  if ((65 <=? n) && (n <=? 90))%N then ascii_of_N (n + 32)
  else if ((192 <=? n) && (n <=? 222) && negb (n =? 215))%N
       then ascii_of_N (n + 32)
  else c.

(** [s.toLowerCase()]. *)
Fixpoint toLowerCase (s : string) : string :=
  match s with
  | EmptyString => EmptyString
  | String c r => String (lower_char c) (toLowerCase r)
  end.

(** [s.split(sep)] for a separator of one code unit or more: the string
    is cut at each occurrence met from the left, [skip] counting the code
    units of an occurrence still to pass. *)
Fixpoint split_by_from (sep : string) (skip : nat) (s : string)
  : list string :=
  match s with
  | EmptyString => [EmptyString]
  | String c r =>
      match skip with
      | S k => split_by_from sep k r
      | O =>
          if String.prefix sep s
          then EmptyString :: split_by_from sep (String.length sep - 1) r
          else match split_by_from sep 0 r with
               | t :: ts => String c t :: ts
               | [] => [String c EmptyString]
               end
      end
  end.

Definition split_by (sep : string) (s : string) : list string :=
  split_by_from sep 0 s.

(** The characters [encodeURIComponent] leaves as they are: letters,
    digits and [- _ . ! ~ * ' ( )]. *)
Definition is_unreserved (c : ascii) : bool :=
  let n := N_of_ascii c in
  ((65 <=? n) && (n <=? 90) || (97 <=? n) && (n <=? 122) ||
   (48 <=? n) && (n <=? 57) ||
   (n =? 45) || (n =? 95) || (n =? 46) || (n =? 33) || (n =? 126) ||
   (n =? 42) || (n =? 39) || (n =? 40) || (n =? 41))%N.

Definition hex_digit (n : N) : ascii :=
  if (n <? 10)%N then ascii_of_N (48 + n) else ascii_of_N (55 + n).

(** [%XX] for one octet. *)
Definition percent_octet (n : N) : string :=
  String "%" (String (hex_digit (n / 16)) (String (hex_digit (n mod 16))
    EmptyString)).

(** The escape of one code unit below 256: one octet below 128, the two
    octets of its UTF-8 form otherwise. *)
Definition escape_char (c : ascii) : string :=
  let n := N_of_ascii c in
  if (n <? 128)%N then percent_octet n
  else percent_octet (192 + n / 64) ++ percent_octet (128 + n mod 64).

(** [encodeURIComponent(s)]. *)
Fixpoint encodeURIComponent (s : string) : string :=
  match s with
  | EmptyString => EmptyString
  | String c r =>
      (if is_unreserved c then String c EmptyString else escape_char c)
      ++ encodeURIComponent r
  end.

Definition is_digit (c : ascii) : bool :=
  let n := N_of_ascii c in ((48 <=? n) && (n <=? 57))%N.

(** [\w]: a letter, a digit or the underscore. *)
Definition is_word (c : ascii) : bool :=
  let n := N_of_ascii c in
  ((65 <=? n) && (n <=? 90) || (97 <=? n) && (n <=? 122) ||
   (48 <=? n) && (n <=? 57) || (n =? 95))%N.

(** The match of [/\d+\w{2}/] anchored at the start of [s]: [\d+] takes
    as many digits as it can and gives them back one at a time. *)
Fixpoint match_rank_here (s : string) : option string :=
  match s with
  | String c r =>
      if is_digit c then
        match match_rank_here r with
        | Some m => Some (String c m)
        | None =>
            match r with
            | String w1 (String w2 _) =>
                if is_word w1 && is_word w2
                then Some (String c (String w1 (String w2 EmptyString)))
                else None
            | _ => None
            end
        end
      else None
  | EmptyString => None
  end.

(** [s.match(/\d+\w{2}/)?.toString()]: the leftmost match. *)
Fixpoint match_rank (s : string) : option string :=
  match match_rank_here s with
  | Some m => Some m
  | None =>
      match s with
      | String _ r => match_rank r
      | EmptyString => None
      end
  end.

End JsText.

(** ** The address [search] asks for (lines 117-181) *)

Module SearchUrl.

Import JsString JsText JsValue.

(** [MangaSearch<MangaPark>]: a title, or an object with a title and an
    author, each of which can be missing; [null] and [undefined] are
    [QueryNull]. *)
Inductive MangaSearch :=
| QueryNull
| QueryString (s : string)
| QueryObject (title author : option string).

(** The [rating] filter: one of the six star labels, or ['any']. *)
Inductive RatingFilter :=
| Stars (n : nat)
| AnyRating.

Record GenreFilter := {
  include : option (list string);
  exclude : option (list string)
}.

(** [MangaParkOptions]; [None] is a property left out. *)
Record MangaParkOptions := {
  genres : option GenreFilter;
  status : option string;
  rating : option RatingFilter;
  type : option string;
  yearReleased : option string;
  orderBy : option string;
  page : jsval
}.

(** [filters = {}]. *)
Definition no_filters : MangaParkOptions :=
  {| genres := None; status := None; rating := None; type := None;
     yearReleased := None; orderBy := None; page := JUndefined |}.

(** The enum [MangaParkOrderBy]. *)
Definition MangaParkOrderBy : list (string * string) :=
  [ ("A-Z", "a-z");
    ("latest_updates", "update");
    ("rating", "rating");
    ("new_manga", "create");
    ("most_views", "views_a") ].

(** The enum [MangaParkGenres]. *)
Definition MangaParkGenres : list (string * string) :=
  [
    ("4 koma", "4-koma");
    ("Action", "action");
    ("Adaptation", "adaptation");
    ("Adult", "adult");
    ("Adventure", "adventure");
    ("Aliens", "aliens");
    ("Animals", "animals");
    ("Anthology", "anthology");
    ("Award winning", "award-winning");
    ("Comedy", "comedy");
    ("Cooking", "cooking");
    ("Crime", "crime");
    ("Crossdressing", "crossdressing");
    ("Delinquents", "delinquents");
    ("Demons", "demons");
    ("Doujinshi", "doujinshi");
    ("Drama", "drama");
    ("Ecchi", "ecchi");
    ("Fan colored", "fan-colored");
    ("Fantasy", "fantasy");
    ("Food", "food");
    ("Full color", "full-color");
    ("Game", "game");
    ("Gender bender", "gender-bender");
    ("Genderswap", "genderswap");
    ("Ghosts", "ghosts");
    ("Gore", "gore");
    ("Gossip", "gossip");
    ("Gyaru", "gyaru");
    ("Harem", "harem");
    ("Historical", "historical");
    ("Horror", "horror");
    ("Incest", "incest");
    ("Isekai", "isekai");
    ("Josei", "josei");
    ("Kids", "kids");
    ("Loli", "loli");
    ("Lolicon", "lolicon");
    ("Long strip", "long-strip");
    ("Mafia", "mafia");
    ("Magic", "magic");
    ("Magical girls", "magical-girls");
    ("Manhwa", "manhwa");
    ("Martial arts", "martial-arts");
    ("Mature", "mature");
    ("Mecha", "mecha");
    ("Medical", "medical");
    ("Military", "military");
    ("Monster girls", "monster-girls");
    ("Monsters", "monsters");
    ("Music", "music");
    ("Mystery", "mystery");
    ("Ninja", "ninja");
    ("Office workers", "office-workers");
    ("Official colored", "official-colored");
    ("One shot", "one-shot");
    ("Parody", "parody");
    ("Philosophical", "philosophical");
    ("Police", "police");
    ("Post apocalyptic", "post-apocalyptic");
    ("Psychological", "psychological");
    ("Reincarnation", "reincarnation");
    ("Reverse harem", "reverse-harem");
    ("Romance", "romance");
    ("Samurai", "samurai");
    ("School life", "school-life");
    ("Sci fi", "sci-fi");
    ("Seinen", "seinen");
    ("Shota", "shota");
    ("Shotacon", "shotacon");
    ("Shoujo", "shoujo");
    ("Shoujo ai", "shoujo-ai");
    ("Shounen", "shounen");
    ("Shounen ai", "shounen-ai");
    ("Slice of life", "slice-of-life");
    ("Smut", "smut");
    ("Space", "space");
    ("Sports", "sports");
    ("Super power", "super-power");
    ("Superhero", "superhero");
    ("Supernatural", "supernatural");
    ("Survival", "survival");
    ("Suspense", "suspense");
    ("Thriller", "thriller");
    ("Time travel", "time-travel");
    ("Toomics", "toomics");
    ("Traditional games", "traditional-games");
    ("Tragedy", "tragedy");
    ("User created", "user-created");
    ("Vampire", "vampire");
    ("Vampires", "vampires");
    ("Video games", "video-games");
    ("Villainess", "villainess");
    ("Virtual reality", "virtual-reality");
    ("Web comic", "web-comic");
    ("Webtoon", "webtoon");
    ("Wuxia", "wuxia");
    ("Yaoi", "yaoi");
    ("Yuri", "yuri");
    ("Zombies", "zombies")
  ].

(** The own property of an enum object with that key, if it has one. *)
Fixpoint lookup (table : list (string * string)) (key : string)
  : option string :=
  match table with
  | [] => None
  | (k, v) :: rest => if String.eqb k key then Some v else lookup rest key
  end.

(** The functions every plain object inherits from [Object.prototype]. *)
Definition Object_prototype_functions : list string :=
  [ "constructor"; "__defineGetter__"; "__defineSetter__";
    "hasOwnProperty"; "__lookupGetter__"; "__lookupSetter__";
    "isPrototypeOf"; "propertyIsEnumerable"; "toString"; "valueOf";
    "toLocaleString" ].

(** What [table[key]] is on the plain object an [enum] compiles to: the
    value of an own property, a function inherited from
    [Object.prototype], the prototype itself for [__proto__], or
    [undefined]. *)
Inductive property :=
| Own (value : string)
| Native (name : string)
| Prototype
| Undefined.

Definition get (table : list (string * string)) (key : string)
  : property :=
  match lookup table key with
  | Some v => Own v
  | None =>
      if String.eqb key "__proto__" then Prototype
      else if existsb (String.eqb key) Object_prototype_functions
           then Native key
           else Undefined
  end.

Section Host.

(** What [String(f)] gives for the native function
    [Object.prototype[name]]; the text depends on the engine. *)
Variable function_text : string -> string.

(** What a template literal prints for a property. *)
Definition print (p : property) : string :=
  match p with
  | Own v => v
  | Native name => function_text name
  | Prototype => "[object Object]"
  | Undefined => "undefined"
  end.

(** What [Array.prototype.join] prints for a member: nothing for
    [undefined]. *)
Definition print_member (p : property) : string :=
  match p with
  | Undefined => ""
  | _ => print p
  end.

(** Lines 131-143. *)
Definition queryParam (query : MangaSearch) : string :=
  match query with
  | QueryNull => ""
  | QueryString EmptyString => ""
  | QueryString s => "q=" ++ encodeURIComponent s
  | QueryObject title author =>
      let author := match author with
                    | None => ""
                    | Some a => "autart=" ++ encodeURIComponent a
                    end in
      let _query := match title with
                    | None => ""
                    | Some t => "q=" ++ encodeURIComponent t
                    end in
      join "" (non_empty [_query; author])
  end.

(** [`name=${list.map((genre) => MangaParkGenres[genre])}`] when the
    list is there and not empty (lines 145-153). *)
Definition genres_param (name : string) (list : option (list string))
  : string :=
  match list with
  | Some (g :: gs) =>
      name ++ "=" ++
      join "," (map (fun genre => print_member (get MangaParkGenres genre))
                  (g :: gs))
  | _ => ""
  end.

(** Lines 155: [rating.substring(0, 0)] is the empty string whatever the
    label. *)
Definition rating_param (rating : RatingFilter) : string :=
  match rating with
  | AnyRating => ""
  | Stars _ => "rating=" ++ ""
  end.

(** [name=value] unless the value is ['any'] (lines 157-159). *)
Definition choice_param (name value : string) : string :=
  if String.eqb value "any" then "" else name ++ "=" ++ value.

(** The arguments of the address, before the empty ones are removed
    (lines 165-176). *)
Definition search_args (query : MangaSearch) (filters : MangaParkOptions)
  : list string :=
  let status := coalesce (status filters) "any" in
  let rating := match rating filters with
                | Some r => r
                | None => AnyRating
                end in
  let type := coalesce (type filters) "any" in
  let orderBy := coalesce (orderBy filters) "most_views" in
  let page := with_default (page filters) (JNumber (JsNumber.of_Z 1)) in
  let includeGenres :=
    genres_param "genres"
      match genres filters with
      | Some g => include g
      | None => None
      end in
  let excludeGenres :=
    genres_param "genres-exclude"
      match genres filters with
      | Some g => exclude g
      | None => None
      end in
  let mangaRating := rating_param rating in
  let mangaStatus := choice_param "status" status in
  let mangaType := choice_param "types" type in
  let year := match yearReleased filters with
              | Some (String c r) => "years=" ++ String c r
              | _ => ""
              end in
  let order := "orderby=" ++ print (get MangaParkOrderBy orderBy) in
  [ queryParam query; includeGenres; excludeGenres; mangaRating;
    mangaStatus; mangaType; year; order; "st-ss=0";
    "page=" ++ JsValue.template page ].

(** [url] (lines 130-181); a [filters] that is [null] or [undefined] is
    [no_filters]. *)
Definition search_url (query : MangaSearch) (filters : MangaParkOptions)
  : string :=
  "https://v2.mangapark.net/search?" ++
  join "&" (non_empty (search_args query filters)).

End Host.

End SearchUrl.

(** ** What [getMangaMeta] reads from the page (lines 294-447) *)

Module MetaPage.

Import JsString JsText JsValue.

(** [MangaChapters<MangaPark>]; [uploadWhen] is [undefined] when the
    block has fewer times than chapters. *)
Record MangaChapter := {
  name : string;
  url : string;
  uploadWhen : option string
}.

(** One [div.volumes]: the text of the label spans next to it, the
    [href] and the text of each [a.visited.ch] in it, the text of each
    [span.time] in it. *)
Record Volume := {
  version_text : string;
  chapter_anchors : list (option string * string);
  time_texts : list string
}.

(** What the selectors of [getMangaMeta] find in the loaded page. *)
Record MetaDocument := {
  (** [$('h2 > a').text()] *)
  heading_text : string;
  (** the text of each [td] beside the "Alternative" header *)
  alternative_cells : list string;
  (** the text of the cells beside the "Rating" header *)
  rating_cell : string;
  (** the text of each child of the cells beside "Author(s)",
      "Artist(s)" and "Genre(s)" *)
  author_children : list string;
  artist_children : list string;
  genre_children : list string;
  (** the text of the siblings of the "Type" and "Status" headers *)
  type_cells : string;
  status_cells : string;
  (** the text of [div.summary] without its children *)
  summary_text : string;
  (** [$('img.w-100').attr('src')] *)
  cover_src : option string;
  volumes : list Volume;
  (** the text of the label spans of the streams that are not
      collapsed *)
  stream_label : string;
  (** the text of the cells beside the "Popularity" header *)
  popularity_cell : string
}.

Record Chapters := {
  recentlyUpdated : option string;
  duck : list MangaChapter;
  fox : list MangaChapter;
  rock : list MangaChapter;
  panda : list MangaChapter;
  mini : list MangaChapter;
  toon : list MangaChapter
}.

(** [MangaParkMeta]. *)
Record MangaParkMeta := {
  title_main : string;
  title_alt : list string;
  summary : string;
  coverImage : string;
  authors : list string;
  artists : list string;
  popularity : string;
  genres : list string;
  rating : MangaPark.MangaRating;
  type : string;
  status : string;
  chapters : Chapters
}.

(** Line 296. *)
Definition mainTitle (heading : string) : string :=
  join " " (init_of (split " " heading)).

(** Lines 298-307. *)
Definition altTitles (cells : list string) : list string :=
  flat_map (fun cell => map trim (split ";" (trim cell))) cells.

Definition no_type : reason :=
  RError "TypeError"
    "Cannot read properties of undefined (reading 'toLowerCase')".

(** Lines 336-340: the second word of the text, "Webtoon" read as
    "manhwa", in lower case; a text of one word has no second word and
    the call of [toLowerCase] on [undefined] throws. *)
Definition mangaType (cells : string) : reason + string :=
  match nth_error (split " " (trim cells)) 1 with
  | None => inl no_type
  | Some mangaType =>
      inr (toLowerCase (if String.eqb mangaType "Webtoon" then "manhwa"
                        else mangaType))
  end.

(** Lines 359-381: the chapters of one block. *)
Definition volume_chapters (v : Volume) : list MangaChapter :=
  let mangaChapters :=
    map (fun '(href, text) =>
           (text,
            "https://v2.mangapark.net" ++
            JsString.template (option_map drop_last href)))
        (chapter_anchors v) in
  let uploadWhen := map trim (time_texts v) in
  map (fun '(i, (name, chapterUrl)) =>
         {| name := name;
            url := chapterUrl;
            uploadWhen := nth_error uploadWhen i |})
      (combine (seq 0 (List.length mangaChapters)) mangaChapters).

(** Lines 352-357. *)
Definition volume_version (v : Volume) : string :=
  toLowerCase (drop 8 (version_text v)).

(** The index the [switch] of lines 383-403 assigns to, if any. *)
Definition bucket_index (version : string) : option nat :=
  if String.eqb version "duck" then Some 0%nat
  else if String.eqb version "fox" then Some 1%nat
  else if String.eqb version "rock" then Some 2%nat
  else if String.eqb version "panda" then Some 3%nat
  else if String.eqb version "mini" then Some 4%nat
  else if String.eqb version "toon" then Some 5%nat
  else None.

(** [array[i] = x] for an index within the array. *)
Fixpoint assign {A : Type} (i : nat) (x : A) (items : list A) : list A :=
  match items, i with
  | [], _ => []
  | _ :: rest, O => x :: rest
  | y :: rest, S k => y :: assign k x rest
  end.

(** Lines 349-404: the six arrays after every block has been visited in
    document order. *)
Definition sourceChapters (vs : list Volume) : list (list MangaChapter) :=
  fold_left
    (fun acc v =>
       match bucket_index (volume_version v) with
       | Some i => assign i (volume_chapters v) acc
       | None => acc
       end)
    vs [[]; []; []; []; []; []].

(** Lines 406-414. *)
Definition recommendedSource (label : string) : option string :=
  match toLowerCase (drop 8 label) with
  | EmptyString => None
  | source => Some source
  end.

(** Lines 423-429. *)
Definition popularity_of (cell : string) : string :=
  coalesce (match_rank (trim cell)) "?".

Section Extract.

Variable toLocaleString : JsNumber.number -> string.

(** The record of lines 294-447, or what the code throws on the way. *)
Definition meta_extract (doc : MetaDocument) : reason + MangaParkMeta :=
  let altTitles := altTitles (alternative_cells doc) in
  let rating := MangaPark.meta_rating toLocaleString (rating_cell doc) in
  let authors := map trim (author_children doc) in
  let artists := map trim (artist_children doc) in
  let genres := map trim (genre_children doc) in
  match mangaType (type_cells doc) with
  | inl e => inl e
  | inr type =>
      let status := toLowerCase (trim (status_cells doc)) in
      let summary := trim (summary_text doc) in
      let coverImage := coalesce (cover_src doc) "" in
      let sourceChapters := sourceChapters (volumes doc) in
      let chapters :=
        {| recentlyUpdated := recommendedSource (stream_label doc);
           duck := nth 0 sourceChapters [];
           fox := nth 1 sourceChapters [];
           rock := nth 2 sourceChapters [];
           panda := nth 3 sourceChapters [];
           mini := nth 4 sourceChapters [];
           toon := nth 5 sourceChapters [] |} in
      inr {| title_main := mainTitle (heading_text doc);
             title_alt := non_empty altTitles;
             summary := summary;
             coverImage := coverImage;
             authors := authors;
             artists := non_empty artists;
             popularity := popularity_of (popularity_cell doc);
             genres := genres;
             rating := rating;
             type := type;
             status := status;
             chapters := chapters |}
  end.

End Extract.

End MetaPage.

(** ** What [getLatestUpdates] reads from the page (lines 478-501) *)

Module LatestPage.

Import JsString JsText.

(** One [div.d-flex.flex-row.item]: the [title] and [href] of its anchor
    child, the [src] of the image in the anchor, the text of each
    [div.mb-2.gens] in it, the text of the time of its first list
    entry. *)
Record LatestItem := {
  anchor_title : option string;
  anchor_href : option string;
  image_src : option string;
  gens_texts : list string;
  time_text : string
}.

(** [MangaParkLatestHotManga]. *)
Record MangaParkLatestHotManga := {
  title : string;
  url : string;
  coverImage : string;
  updatedWhen : string;
  genres : list string
}.

(** The body of the loop, lines 483-500. *)
Definition latest_record (item : LatestItem) : MangaParkLatestHotManga :=
  let title := coalesce (anchor_title item) "" in
  let href := coalesce (anchor_href item) "" in
  let src := coalesce (image_src item) "" in
  let genres :=
    flat_map (fun text => split_by ", " (trim text)) (gens_texts item) in
  {| title := title;
     url := "https://v2.mangapark.net" ++ href;
     coverImage := src;
     updatedWhen := time_text item;
     genres := genres |}.

(** [mangas] after the loop. *)
Definition latest_extract (items : list LatestItem)
  : list MangaParkLatestHotManga :=
  map latest_record items.

End LatestPage.

(** ** Concrete documents and hosts *)

Module Examples.

Import JsValue Interception Effects Browser MangaPark Adapter Cheerio.

(** A host whose locale prints a number as [String] does. *)
Definition plain_locale : JsNumber.number -> string := JsNumber.to_string.

(** How V8 prints the native function [Object.prototype[name]], the
    constructor being [Object]. *)
Definition v8_function_text (name : string) : string :=
  "function " ++
  (if String.eqb name "constructor" then "Object" else name) ++
  "() { [native code] }".

(** The sibling sequence [A, marker, B, C, marker, D]. *)
Definition siblings_ABCD : list string :=
  ["A"; "Authors/Artists:"; "B"; "C"; "Authors/Artists:"; "D"].

Definition one_title : list (option string * option string) :=
  [(Some "/manga/alpha", Some "Alpha")].

(** One result row whose authors walk ends after the last label (for
    instance [<div><a>D</a><b>Authors/Artists:</b><a>A</a><b class="pd">
    </b></div>], which [prevAll] lists nearest first), with two genre
    anchors. *)
Definition trailing_author_document : SearchDocument :=
  {| title_anchors := one_title;
     author_siblings := ["A"; "Authors/Artists:"; "D"];
     genre_fields := [[ {| tag := "a"; text := "G1" |};
                        {| tag := "a"; text := "G2" |} ]];
     rate_titles := [];
     cover_images := [] |}.

(** One result row whose authors walk is [A, marker, B, C, marker, D],
    with two genre anchors. *)
Definition abcd_document : SearchDocument :=
  {| title_anchors := one_title;
     author_siblings := siblings_ABCD;
     genre_fields := [[ {| tag := "a"; text := "G1" |};
                        {| tag := "a"; text := "G2" |} ]];
     rate_titles := [];
     cover_images := [] |}.

(** One result row whose authors walk ends with the label. *)
Definition flushed_document : SearchDocument :=
  {| title_anchors := [(Some "/manga/beta", Some "Beta")];
     author_siblings := ["X"; "Authors/Artists:"];
     genre_fields := [];
     rate_titles := [];
     cover_images := [] |}.

(** The same row without any genre anchor. *)
Definition no_genre_document : SearchDocument :=
  {| title_anchors := one_title;
     author_siblings := ["A"; "Authors/Artists:"; "D"];
     genre_fields := [];
     rate_titles := [];
     cover_images := [] |}.

(** [this.options] of [new MangaPark()]. *)
Definition default_options : ScrapingOptions :=
  {| proxy := None; debug := None |}.

Definition user_agent : string :=
  "Mozilla/5.0 (Windows NT 10.0; Win64; x64) AppleWebKit/537.36 (KHTML, like Gecko) Chrome/90.0.4430.93 Safari/537.36".

(** A page on which every call succeeds and the evaluated script gives
    [v]. *)
Definition healthy_page {R : Type} (v : R) : Page R :=
  {| setViewport_result := None;
     evaluateOnNewDocument_result := None;
     goto_result := fun _ => None;
     addScriptTag_result := None;
     waitForSelector_result := fun _ => None;
     evaluate_result := inr v |}.

Definition target_closed : reason :=
  RError "Error"
    "Protocol error (Emulation.setDeviceMetricsOverride): Target closed.".

(** A page on which [setViewport] rejects. *)
Definition viewport_fails_page {R : Type} (v : R) : Page R :=
  {| setViewport_result := Some target_closed;
     evaluateOnNewDocument_result := None;
     goto_result := fun _ => None;
     addScriptTag_result := None;
     waitForSelector_result := fun _ => None;
     evaluate_result := inr v |}.

(** A page on which the injection of the preload script rejects. *)
Definition preload_fails_page {R : Type} (v : R) : Page R :=
  {| setViewport_result := None;
     evaluateOnNewDocument_result := Some target_closed;
     goto_result := fun _ => None;
     addScriptTag_result := None;
     waitForSelector_result := fun _ => None;
     evaluate_result := inr v |}.

(** A launch that succeeds, with one page and a [close] that succeeds. *)
Definition puppeteer_with {R : Type} (page : Page R) : Puppeteer R :=
  {| launch_result := inr {| pages_result := inr [page];
                             close_result := None |};
     randomUserAgent := user_agent |}.

Definition chapter_url : string :=
  "https://v2.mangapark.net/manga/berserk/i1/c1".

Definition chapter_images : list string :=
  ["https://xcdn-222.mangapark.net/10102/69/9b/01.webp"].

Definition search_url : string :=
  "https://v2.mangapark.net/search?q=Berserk&orderby=views_a&st-ss=0&page=1".

Definition second_search_url : string :=
  "https://v2.mangapark.net/search?q=Beta&orderby=views_a&st-ss=0&page=1".

(** A site that answers the first search with [no_genre_document] and any
    other with [flushed_document]. *)
Definition two_pages (url : string) : reason + SearchDocument :=
  if String.eqb url search_url then inr no_genre_document
  else inr flushed_document.

(** A results page without any result row. *)
Definition empty_document : SearchDocument :=
  {| title_anchors := [];
     author_siblings := [];
     genre_fields := [];
     rate_titles := [];
     cover_images := [] |}.

Definition callback_error : reason :=
  RError "TypeError" "Cannot read properties of undefined (reading 'title')".



(** A page script that throws before giving a promise. *)
Definition throwing_script {T R : Type} : AutomatedCallback (T := T) (R := R) :=
  fun _ w => (SyncThrow callback_error, w).

End Examples.

(** ** More hosts and inputs *)

Module Hosts.

Import JsValue Interception Effects Browser Adapter Examples.

(** The state in which [automateBrowser] calls the page script: the
    browser launched, its pages listed, the viewport set and the preload
    script injected, in this order. *)
Definition after_setup {T R : Type} (pup : Puppeteer R)
  (options : ScrapingOptions) (w : world T) : world T :=
  {| memo := memo w;
     interception := None;
     trace :=
       (trace w ++
        [ Launch (negb match debug options with
                       | Some b => b
                       | None => false
                       end)
            (puppeteer_args options (randomUserAgent pup));
          Pages; SetViewport 1920 1080; EvaluateOnNewDocument ])%list |}.

Definition launch_error : reason :=
  RError "Error" "Failed to launch the browser process!".

(** A host on which the launch fails. *)
Definition no_browser {R : Type} : Puppeteer R :=
  {| launch_result := inl launch_error; randomUserAgent := user_agent |}.

Definition close_error : reason :=
  RError "Error" "Protocol error: Connection closed.".

(** A launch that succeeds, with one page and a [close] that rejects. *)
Definition puppeteer_close_fails {R : Type} (page : Page R) : Puppeteer R :=
  {| launch_result := inr {| pages_result := inr [page];
                             close_result := Some close_error |};
     randomUserAgent := user_agent |}.

Definition navigation_timeout : reason :=
  RError "TimeoutError" "Navigation timeout of 30000 ms exceeded".

(** A page on which the navigation times out. *)
Definition unreachable_page {R : Type} (v : R) : Page R :=
  {| setViewport_result := None;
     evaluateOnNewDocument_result := None;
     goto_result := fun _ => Some navigation_timeout;
     addScriptTag_result := None;
     waitForSelector_result := fun _ => None;
     evaluate_result := inr v |}.

Definition proxy_options : ScrapingOptions :=
  {| proxy := Some {| host := "127.0.0.1"; port := JsNumber.of_Z 8080 |};
     debug := Some true |}.

End Hosts.

(** ** Shapes of documents *)

Module Shapes.

Import Cheerio.


(** One result row whose authors walk holds no label. *)
Definition unlabelled_document : MangaPark.SearchDocument :=
  {| MangaPark.title_anchors := Examples.one_title;
     MangaPark.author_siblings := ["A"];
     MangaPark.genre_fields := [];
     MangaPark.rate_titles := [];
     MangaPark.cover_images := [] |}.

(** A name with a hyphen for each of its spaces. *)
Fixpoint hyphenate (s : string) : string :=
  match s with
  | EmptyString => EmptyString
  | String c r =>
      String (if Ascii.eqb c " " then "-"%char else c) (hyphenate r)
  end.

End Shapes.

(** ** The methods of the class on the pages they read *)

Module Scraper.

Import JsValue Effects Browser MangaPark.

Section Methods.

(** The parsed document [readHtml] gives, what the selectors of
    [search] and of [getLatestUpdates] find in it, and what the
    selectors of [getMangaMeta] find in [cheerio.load(html)]. *)
Variable Document : Type.
Variable readHtml : string -> reason + Document.
Variable select_search : Document -> SearchDocument.
Variable select_latest : Document -> list LatestPage.LatestItem.
Variable load : string -> MetaPage.MetaDocument.

Variable toLocaleString : JsNumber.number -> string.

(** The text the engine gives for a native function of
    [Object.prototype]. *)
Variable function_text : string -> string.

(** [this.options]. *)
Variable options : ScrapingOptions.

(** [search(query, filters, callback)], lines 112-259, for a [page]
    that is a primitive value. *)
Definition search (query : SearchUrl.MangaSearch)
  (filters : SearchUrl.MangaParkOptions)
  (callback : Adapter.MangaCallback (list MangaParkManga))
  : world (list MangaParkManga) -> world (list MangaParkManga) :=
  Adapter.search Document readHtml select_search toLocaleString
    (SearchUrl.search_url function_text query filters)
    (SearchUrl.page filters) callback.




(** [getMangaMeta(url, callback)], lines 275-455. *)
Definition getMangaMeta (pup : Puppeteer string) (url : option string)
  (callback : Adapter.MangaCallback MetaPage.MangaParkMeta)
  : world MetaPage.MangaParkMeta -> world MetaPage.MangaParkMeta :=
  Adapter.getMangaMeta MetaPage.MangaParkMeta
    (fun html => MetaPage.meta_extract toLocaleString (load html))
    options pup url callback.

(** [getLatestUpdates(options, callback)], lines 464-508. *)
Definition getLatestUpdates (arg : option jsval)
  (callback : Adapter.MangaCallback (list LatestPage.MangaParkLatestHotManga))
  : world (list LatestPage.MangaParkLatestHotManga)
    -> world (list LatestPage.MangaParkLatestHotManga) :=
  Adapter.getLatestUpdates Document readHtml
    LatestPage.MangaParkLatestHotManga
    (fun doc => LatestPage.latest_extract (select_latest doc))
    arg callback.

End Methods.

End Scraper.

(** ** Pages of a manga *)

Module Pages.

Import MetaPage.


Definition block (label : string) (chapter : string) : Volume :=
  {| version_text := label;
     chapter_anchors := [(Some ("/manga/berserk/i1/" ++ chapter ++ "/1"),
                          chapter)];
     time_texts := [" 3 days ago "] |}.

(** A page of a manhwa with two blocks of the same source and one of a
    source the code does not know. *)
Definition berserk_page : MetaDocument :=
  {| heading_text := "Berserk Manga";
     alternative_cells := [" Berserk ; ; Kenpuu Denki "];
     rating_cell := "Average 4.3 / 5 out of 12345 votes.";
     author_children := ["MIURA Kentaro"];
     artist_children := ["MIURA Kentaro"; ""];
     genre_children := ["Action"; "Horror"];
     type_cells := " Japanese Manga - Read from right to left. ";
     status_cells := " Ongoing ";
     summary_text := " Guts, known as the Black Swordsman. ";
     cover_src := None;
     volumes := [ block "Version Fox" "ch.1";
                  block "Version Cat" "ch.2";
                  block "Version Fox" "ch.3" ];
     stream_label := "Version Fox";
     popularity_cell := " 12th, it has 3,456,789 views. " |}.


End Pages.

(** ** A page of latest updates *)

Module Listings.

Import LatestPage.

Definition latest_item : LatestItem :=
  {| anchor_title := Some "Berserk";
     anchor_href := Some "/manga/berserk";
     image_src := None;
     gens_texts := [" Action, Slice of life "];
     time_text := "3 days ago" |}.

(** A site whose every page of latest updates holds [latest_item]. *)
Definition one_item_site (url : string)
  : JsValue.reason + list LatestItem :=
  inr [latest_item].

End Listings.

(** * Properties *)

(** ** Run grouping *)

Section RunGroupingFacts.

Import MangaPark Cheerio RunGrouping.

Context {E : Type}.
Variable is_marker : E -> bool.
Variable text_of : E -> string.
Variable callback :
  list string -> E -> option (list (list string)) * list string.

(** The shape both callbacks of [search] have. *)
Hypothesis callback_shape : forall memo el,
  callback memo el =
  if is_marker el then (Some [memo], [])
  else (None, (memo ++ [text_of el])%list).

Lemma map_get_walk (memo : list string) (els : list E) :
  map_get callback memo els =
  (walk is_marker text_of memo els, pending is_marker text_of memo els).
Proof.
  revert memo.
  induction els as [|el rest IH]; intros memo; simpl.
  - reflexivity.
  - rewrite callback_shape.
    destruct (is_marker el); rewrite IH; reflexivity.
Qed.

(** The walk in terms of the cut sequence: the buffer it starts with
    goes in front of the first group, or stays pending when the
    sequence has no marker. *)
Lemma walk_runs (buffer : list string) (els : list E) :
  walk is_marker text_of buffer els =
  match fst (runs is_marker text_of els) with
  | [] => []
  | g :: gs => (buffer ++ g)%list :: gs
  end.
Proof.
  revert buffer.
  induction els as [|el rest IH]; intros buffer; simpl.
  - reflexivity.
  - destruct (runs is_marker text_of rest) as [gs tl] eqn:Hr.
    destruct (is_marker el); simpl.
    + rewrite app_nil_r. f_equal.
      rewrite IH. simpl. destruct gs; reflexivity.
    + rewrite IH. simpl.
      destruct gs as [|g gs']; simpl; [reflexivity|].
      rewrite <- app_assoc. reflexivity.
Qed.

Lemma pending_runs (buffer : list string) (els : list E) :
  pending is_marker text_of buffer els =
  match fst (runs is_marker text_of els) with
  | [] => (buffer ++ snd (runs is_marker text_of els))%list
  | _ :: _ => snd (runs is_marker text_of els)
  end.
Proof.
  revert buffer.
  induction els as [|el rest IH]; intros buffer; simpl.
  - rewrite app_nil_r. reflexivity.
  - destruct (runs is_marker text_of rest) as [gs tl] eqn:Hr.
    destruct (is_marker el); simpl.
    + rewrite IH. simpl. destruct gs; reflexivity.
    + rewrite IH. simpl.
      destruct gs as [|g gs']; simpl; [|reflexivity].
      rewrite <- app_assoc. reflexivity.
Qed.

Lemma groupBySiblingMarker_runs (els : list E) :
  groupBySiblingMarker is_marker text_of els =
  fst (runs is_marker text_of els).
Proof.
  unfold groupBySiblingMarker. rewrite walk_runs.
  destruct (fst (runs is_marker text_of els)); reflexivity.
Qed.

(** A sequence that ends with a marker leaves nothing pending. *)
Lemma pending_ends_with_marker (buffer : list string) (els : list E)
  (el : E) :
  is_marker el = true ->
  pending is_marker text_of buffer (els ++ [el]) = [].
Proof.
  intros Hm. revert buffer.
  induction els as [|x rest IH]; intros buffer; simpl.
  - rewrite Hm. reflexivity.
  - destruct (is_marker x); apply IH.
Qed.

End RunGroupingFacts.

Section SearchPasses.

Import MangaPark Cheerio RunGrouping.

Lemma authors_callback_shape (memo : list string) (text : string) :
  authors_callback memo text =
  if authors_marker text then (Some [memo], [])
  else (None, (memo ++ [text])%list).
Proof.
  unfold authors_callback, authors_marker.
  destruct (JsString.includes "Authors/Artists:" text); reflexivity.
Qed.

Lemma genres_callback_shape (memo : list string) (el : string * bool) :
  genres_callback memo el =
  if genres_marker el then (Some [memo], [])
  else (None, (memo ++ [fst el])%list).
Proof.
  destruct el as [text [|]]; reflexivity.
Qed.

Lemma authors_pass_walk (memo : list string) (doc : SearchDocument) :
  authors_pass memo doc =
  (walk authors_marker (fun t => t) memo (author_siblings doc),
   pending authors_marker (fun t => t) memo (author_siblings doc)).
Proof.
  unfold authors_pass.
  apply (map_get_walk authors_marker (fun t => t)).
  apply authors_callback_shape.
Qed.

Lemma genres_pass_walk (memo : list string) (doc : SearchDocument) :
  genres_pass memo doc =
  (walk genres_marker fst memo (genre_anchors doc),
   pending genres_marker fst memo (genre_anchors doc)).
Proof.
  unfold genres_pass.
  apply (map_get_walk genres_marker fst).
  apply genres_callback_shape.
Qed.

(** The anchors of a container, when there are any, end with one that no
    anchor follows. *)
Lemma child_anchors_last (children : list node) :
  child_anchors children = [] \/
  exists front t, child_anchors children = (front ++ [(t, false)])%list.
Proof.
  induction children as [|n rest IH]; simpl.
  - left. reflexivity.
  - destruct (is_a n) eqn:Hn.
    + right. destruct IH as [Hnil | (front & t & Heq)].
      * exists [], (text n). rewrite Hnil. simpl.
        destruct rest as [|m rest']; [reflexivity|].
        simpl in Hnil. destruct (is_a m); [discriminate|reflexivity].
      * rewrite Heq.
        eexists (_ :: front), t. reflexivity.
    + exact IH.
Qed.

Lemma genre_anchors_last (doc : SearchDocument) :
  genre_anchors doc = [] \/
  exists front t, genre_anchors doc = (front ++ [(t, false)])%list.
Proof.
  unfold genre_anchors.
  induction (genre_fields doc) as [|f rest IH]; simpl.
  - left. reflexivity.
  - destruct IH as [Hnil | (front & t & Heq)].
    + rewrite Hnil, app_nil_r. apply child_anchors_last.
    + right. rewrite Heq. exists (child_anchors f ++ front)%list, t.
      rewrite app_assoc. reflexivity.
Qed.

(** The genres pass always hands the buffer back empty once it has seen
    an anchor: in any document the last anchor of the selection is a
    marker. *)
Lemma genres_pass_leaves_nothing (memo : list string)
  (doc : SearchDocument) :
  genre_anchors doc <> [] -> snd (genres_pass memo doc) = [].
Proof.
  intros Hne. rewrite genres_pass_walk. simpl.
  destruct (genre_anchors_last doc) as [Hnil | (front & t & Heq)].
  - contradiction.
  - rewrite Heq. apply pending_ends_with_marker. reflexivity.
Qed.

End SearchPasses.

Section RunGroupingClaims.

Import JsValue Effects MangaPark Cheerio RunGrouping Adapter Examples.

(** A pass of [search] entered with the buffer empty returns, for every
    document, the groups of the specification's walk: the texts before
    each marker, in order, one group per marker, and no group for the
    texts after the last marker. This holds for the authors pass (marker:
    the label text) and for the genres pass (marker: an anchor no anchor
    follows). *)
Lemma pass_from_empty_buffer (doc : SearchDocument) :
  fst (authors_pass [] doc) =
    groupBySiblingMarker authors_marker (fun t => t) (author_siblings doc) /\
  fst (authors_pass [] doc) =
    fst (runs authors_marker (fun t => t) (author_siblings doc)) /\
  fst (genres_pass [] doc) =
    groupBySiblingMarker genres_marker fst (genre_anchors doc) /\
  fst (genres_pass [] doc) =
    fst (runs genres_marker fst (genre_anchors doc)).
Proof.
  rewrite authors_pass_walk, genres_pass_walk. simpl.
  repeat split.
  - apply groupBySiblingMarker_runs.
  - apply groupBySiblingMarker_runs.
Qed.

(** What a pass returns from any buffer: the buffer in front of the
    first group. *)
Lemma authors_pass_from (memo : list string) (doc : SearchDocument) :
  fst (authors_pass memo doc) =
  match groupBySiblingMarker authors_marker (fun t => t)
          (author_siblings doc) with
  | [] => []
  | g :: gs => (memo ++ g)%list :: gs
  end.
Proof.
  rewrite authors_pass_walk, groupBySiblingMarker_runs. simpl.
  apply walk_runs.
Qed.

Lemma genres_pass_from (memo : list string) (doc : SearchDocument) :
  fst (genres_pass memo doc) =
  match groupBySiblingMarker genres_marker fst (genre_anchors doc) with
  | [] => []
  | g :: gs => (memo ++ g)%list :: gs
  end.
Proof.
  rewrite genres_pass_walk, groupBySiblingMarker_runs. simpl.
  apply walk_runs.
Qed.

(** C1, on the code. The authors walk over [A, marker, B, C, marker, D]
    returns the groups [A] and [B, C], but [D] is not dropped: it stays
    in [memo], and the next walk of the same search, over the genre
    anchors [G1, G2], returns the group [D, G1] where the walk of the
    specification returns [G1]. *)
Theorem trailing_buffer_not_discarded :
  author_siblings abcd_document = siblings_ABCD /\
  fst (authors_pass [] abcd_document) = [["A"]; ["B"; "C"]] /\
  snd (authors_pass [] abcd_document) = ["D"] /\
  fst (genres_pass (snd (authors_pass [] abcd_document)) abcd_document)
    = [["D"; "G1"]] /\
  groupBySiblingMarker genres_marker fst (genre_anchors abcd_document)
    = [["G1"]] /\
  map genres (fst (search_extract plain_locale [] abcd_document))
    = [Some ["D"; "G1"]].
Proof. repeat split. Qed.

(** C5, on the code. The buffer is the module variable [memo], shared by
    every pass of every search. Within one search over
    [trailing_author_document] the genres pass starts from the buffer
    [D] the authors pass left, and the genres of the record hold [D].
    Across two searches, the first over [no_genre_document] and the
    second over [flushed_document], the second starts from the buffer
    [D] of the first and reports the authors [D, X] for a row whose only
    author is [X]. *)
Theorem memo_shared_between_calls :
  let searching url :=
    search SearchDocument two_pages (fun d => d) plain_locale url JUndefined
      no_callback in
  let w1 := searching search_url (initial (list MangaParkManga)) in
  let w2 := searching second_search_url w1 in
  (snd (authors_pass [] trailing_author_document) = ["D"] /\
   map genres (fst (search_extract plain_locale [] trailing_author_document))
   = [Some ["D"; "G1"]]) /\
  (memo w1 = ["D"] /\
   map (fun o => match o with
                 | Success data => map authors data
                 | Failure _ => []
                 end) (settlements (trace w2))
   = [[Some ["A"]]; [Some ["D"; "X"]]] /\
   map authors (fst (search_extract plain_locale [] flushed_document))
   = [Some ["X"]]).
Proof. repeat split. Qed.

(** C6, on the code. Two runs of the extraction of [search] over
    [no_genre_document], the second in the state the first leaves:
    the records differ in their authors. *)
Theorem search_extract_twice_differs :
  let run1 := search_extract plain_locale [] no_genre_document in
  let run2 := search_extract plain_locale (snd run1) no_genre_document in
  snd run1 = ["D"] /\
  map authors (fst run1) = [Some ["A"]] /\
  map authors (fst run2) = [Some ["D"; "A"]] /\
  fst run1 <> fst run2.
Proof.
  repeat split. intros H. discriminate H.
Qed.

(** Two runs agree whenever the first starts from an empty buffer and
    leaves it empty. *)
Lemma search_extract_repeatable (toLocaleString : JsNumber.number -> string)
  (doc : SearchDocument) :
  snd (search_extract toLocaleString [] doc) = [] ->
  fst (search_extract toLocaleString
         (snd (search_extract toLocaleString [] doc)) doc)
  = fst (search_extract toLocaleString [] doc).
Proof. intros H. rewrite H. reflexivity. Qed.

(** In particular two runs from an empty buffer agree on every document
    with at least one genre anchor. *)
Lemma search_extract_repeatable_with_genres
  (toLocaleString : JsNumber.number -> string) (doc : SearchDocument) :
  genre_anchors doc <> [] ->
  fst (search_extract toLocaleString
         (snd (search_extract toLocaleString [] doc)) doc)
  = fst (search_extract toLocaleString [] doc).
Proof.
  intros Hne. apply search_extract_repeatable.
  pose proof (genres_pass_leaves_nothing
                (snd (authors_pass [] doc)) doc Hne) as H.
  unfold search_extract.
  destruct (authors_pass [] doc) as [a m1]. cbn [snd] in H.
  destruct (genres_pass m1 doc) as [g m2].
  exact H.
Qed.

End RunGroupingClaims.

(** ** The rating record *)

Section RatingFacts.

Import JsNumber MangaPark.

Lemma of_Z_100 : of_Z 100 = S754_finite false 7036874417766400 (-46).
Proof. reflexivity. Qed.

Lemma div_nan_r (x : number) : div x NaN = NaN.
Proof. destruct x; reflexivity. Qed.

(** A quotient by a zero, times one hundred. *)
Lemma percent_of_zero_denominator (x : number) (sd : bool) :
  mul (div x (S754_zero sd)) (of_Z 100) =
  match x with
  | S754_nan | S754_zero _ => NaN
  | S754_infinity s | S754_finite s _ _ => infinity (xorb s sd)
  end.
Proof.
  rewrite of_Z_100.
  destruct x as [s | s | | s m e]; simpl; try reflexivity;
    rewrite xorb_false_r; reflexivity.
Qed.

Lemma fraction_of_denominator_pos (m : positive) (e : Z) :
  0 < snd (fraction_of m e).
Proof.
  unfold fraction_of. destruct (0 <=? e) eqn:He; simpl.
  - lia.
  - apply Z.pow_pos_nonneg; lia.
Qed.

(** [fixed_integer f m e] is an integer nearest to [m * 2 ^ e * 10 ^ f]:
    with [num / den] the value, it is within one half of
    [num * 10 ^ f / den]. *)
Lemma fixed_integer_nearest (f : nat) (m : positive) (e : Z) :
  Z.abs (2 * snd (fraction_of m e) * fixed_integer f m e
         - 2 * fst (fraction_of m e) * 10 ^ Z.of_nat f)
  <= snd (fraction_of m e).
Proof.
  pose proof (fraction_of_denominator_pos m e) as Hden.
  unfold fixed_integer.
  destruct (fraction_of m e) as [num den]. cbn [fst snd] in *.
  set (p := 10 ^ Z.of_nat f).
  set (a := 2 * num * p + den).
  pose proof (Z.div_mod a (2 * den) ltac:(lia)) as Hdm.
  pose proof (Z.mod_pos_bound a (2 * den) ltac:(lia)) as Hr.
  assert (Ha : 2 * num * p = a - den) by (unfold a; lia).
  rewrite Ha. lia.
Qed.

Lemma toFixed_below_1e21 (f : nat) (s : bool) (m : positive) (e : Z) :
  at_least_1e21 m e = false ->
  toFixed f (S754_finite s m e) =
  (if s then "-" else "") ++ fixed_notation f (fixed_integer f m e).
Proof. intros H. unfold toFixed. rewrite H. reflexivity. Qed.

End RatingFacts.

Section RatingClaims.

Import JsNumber MangaPark Examples.

(** C7, as stated, fails: with numerator 4.3 and denominator 0 the
    percentage is ["Infinity%"], not ["NaN%"]. *)
Lemma rating_zero_denominator_is_infinity :
  ratingPercentage
    (mangaRating plain_locale (Some "Rating 4.3 / 0 out of 12345 votes"))
  = "Infinity%" /\
  ratingPercentage
    (mangaRating plain_locale (Some "Rating 4.3 / 0 out of 12345 votes"))
  <> "NaN%".
Proof.
  assert (H : ratingPercentage
                (mangaRating plain_locale
                   (Some "Rating 4.3 / 0 out of 12345 votes"))
              = "Infinity%") by (vm_compute; reflexivity).
  split; [exact H|]. rewrite H. discriminate.
Qed.

(** C7, amended. For every token list of a rating label, with the
    numerator [Number(tokens[1])] and the denominator [Number(tokens[3])]:
    [ratingStars] is the two numbers as [String] prints them, joined by
    [" / "]; [ratingPercentage] is [((numerator / denominator) *
    100).toFixed(2)] followed by ["%"], which for a finite value below
    [10 ^ 21] is the notation with two decimals of an integer number of
    hundredths within half a hundredth of the value; a denominator that
    is not numeric gives ["NaN%"]; a zero denominator gives ["NaN%"] when
    the numerator is zero or not numeric and ["Infinity%"] or
    ["-Infinity%"] otherwise; the label with numerator 4.3 and
    denominator 5 gives ["86.00%"] and ["4.3 / 5"]. The function is total:
    no label raises an error. *)
Theorem rating_percentage_and_stars
  (toLocaleString : number -> string) (ratingText : list string) :
  let numerator := of_token (nth_error ratingText 1) in
  let denominator := of_token (nth_error ratingText 3) in
  let r := rating_of_tokens toLocaleString ratingText in
  let x := mul (div numerator denominator) (of_Z 100) in
  ratingStars r = to_string numerator ++ " / " ++ to_string denominator /\
  ratingPercentage r = toFixed 2 x ++ "%" /\
  (forall s m e,
     x = S754_finite s m e -> at_least_1e21 m e = false ->
     ratingPercentage r =
       (if s then "-" else "") ++
       fixed_notation 2 (fixed_integer 2 m e) ++ "%" /\
     Z.abs (2 * snd (fraction_of m e) * fixed_integer 2 m e
            - 2 * fst (fraction_of m e) * 10 ^ 2)
     <= snd (fraction_of m e)) /\
  (denominator = NaN -> ratingPercentage r = "NaN%") /\
  (forall sd, denominator = S754_zero sd ->
     ratingPercentage r =
       match numerator with
       | S754_nan | S754_zero _ => "NaN%"
       | S754_infinity s | S754_finite s _ _ =>
           if xorb s sd then "-Infinity%" else "Infinity%"
       end) /\
  ratingPercentage
    (mangaRating toLocaleString (Some "Rating 4.3 / 5 out of 12345 votes"))
  = "86.00%" /\
  ratingStars
    (mangaRating toLocaleString (Some "Rating 4.3 / 5 out of 12345 votes"))
  = "4.3 / 5".
Proof.
  intros numerator denominator r x.
  split; [reflexivity|].
  split; [reflexivity|].
  split.
  { intros s m e Hx Hlt. split.
    - change (ratingPercentage r) with (toFixed 2 x ++ "%").
      rewrite Hx, (toFixed_below_1e21 2 s m e Hlt).
      destruct s; reflexivity.
    - apply (fixed_integer_nearest 2 m e). }
  split.
  { intros Hd.
    change (ratingPercentage r) with (toFixed 2 x ++ "%").
    unfold x. rewrite Hd, div_nan_r. reflexivity. }
  split.
  { intros sd Hd.
    change (ratingPercentage r) with (toFixed 2 x ++ "%").
    unfold x. rewrite Hd, percent_of_zero_denominator.
    destruct numerator as [s | s | | s m e]; try reflexivity;
      destruct (xorb s sd); reflexivity. }
  split; vm_compute; reflexivity.
Qed.

(** The amended C7 at a label whose denominator token is a word, at one
    whose denominator is zero, and at the finite value 86. *)
Lemma rating_percentage_and_stars_witness :
  ratingPercentage
    (rating_of_tokens plain_locale ["Rating"; "4.3"; "/"; "five"]) = "NaN%" /\
  ratingPercentage
    (rating_of_tokens plain_locale ["Rating"; "-4.3"; "/"; "0"])
  = "-Infinity%" /\
  ratingPercentage
    (rating_of_tokens plain_locale ["Rating"; "4.3"; "/"; "5"]) = "86.00%".
Proof.
  split; [|split].
  - apply (rating_percentage_and_stars plain_locale
             ["Rating"; "4.3"; "/"; "five"]).
    reflexivity.
  - apply (proj1 (proj2 (proj2 (proj2 (proj2
             (rating_percentage_and_stars plain_locale
                ["Rating"; "-4.3"; "/"; "0"]))))) false).
    reflexivity.
  - apply (proj1 (proj1 (proj2 (proj2
             (rating_percentage_and_stars plain_locale
                ["Rating"; "4.3"; "/"; "5"])))
             false 6051711999279104%positive (-46) ltac:(vm_compute; reflexivity)
             ltac:(vm_compute; reflexivity))).
Defined.

End RatingClaims.

(** ** Sessions and operations *)

Ltac destruct_innermost :=
  match goal with
  | |- context [match ?x with _ => _ end] =>
      lazymatch x with
      | context [match _ with _ => _ end] => fail
      | _ => destruct x eqn:?
      end
  end.

Ltac unfold_effects :=
  unfold Effects.new_promise, Browser.automateBrowser_with_policy,
    Browser.automateBrowser, Effects.try_catch, Browser.launch,
    Browser.pages, Browser.setViewport, Browser.evaluateOnNewDocument,
    Effects.finally, Effects.async_fn, Browser.goto, Browser.addScriptTag,
    Browser.waitForSelector, Browser.evaluate, Browser.close,
    Adapter.read_html, Adapter.extract_search, Effects.lift,
    Adapter.success, Adapter.failure, Adapter.invoke, Effects.step,
    Effects.step_value, Effects.emit, Effects.bind, Effects.ret,
    Effects.throw.

Ltac run_cases :=
  repeat (cbn -[Browser.puppeteer_args Adapter.getPages_policy
                Adapter.getMangaMeta_policy Adapter.getLatestUpdates_policy
                MangaPark.search_extract String.append JsNumber.of_Z
                JsValue.template] in *;
          destruct_innermost).

Section SessionFacts.

Import JsValue Interception Effects Browser.

Context {T : Type}.

Lemma closes_app (a b : list (event T)) :
  closes (a ++ b) = (closes a + closes b)%nat.
Proof. unfold closes. rewrite filter_app, length_app. reflexivity. Qed.

(** When the setup after the launch succeeds and the page script gives a
    promise, [browser.close()] runs exactly once, whether the promise
    fulfils or rejects and whether [close] itself succeeds. *)
Lemma close_once_when_script_settles {R : Type} (pup : Puppeteer R)
  (options : ScrapingOptions) (callback : AutomatedCallback)
  (browser : BrowserHandle R) (page : Page R) (rest : list (Page R))
  (w : world T) :
  launch_result pup = inr browser ->
  pages_result browser = inr (page :: rest) ->
  setViewport_result page = None ->
  evaluateOnNewDocument_result page = None ->
  (forall w0, exists r w1,
      callback page w0 = (Returned r, w1) /\
      closes (trace w1) = closes (trace w0)) ->
  closes (trace (snd (automateBrowser pup options callback w)))
  = S (closes (trace w)).
Proof.
  intros Hl Hp Hv He Hcb.
  unfold_effects. rewrite Hl. cbn -[puppeteer_args].
  rewrite Hp. cbn -[puppeteer_args].
  rewrite Hv, He. cbn -[puppeteer_args].
  match goal with
  | |- context [callback page ?w0] =>
      destruct (Hcb w0) as (r & w1 & Hc & Hcl); rewrite Hc
  end.
  cbn [trace] in Hcl. rewrite !closes_app in Hcl.
  change (closes [Launch (T := T) (negb match debug options with
                                    | Some b => b
                                    | None => false
                                    end)
                    (puppeteer_args options (randomUserAgent pup))])
    with 0%nat in Hcl.
  change (closes [Pages (T := T)]) with 0%nat in Hcl.
  change (closes [SetViewport (T := T) 1920 1080]) with 0%nat in Hcl.
  change (closes [EvaluateOnNewDocument (T := T)]) with 0%nat in Hcl.
  destruct (close_result browser), r; cbn [snd trace];
    rewrite closes_app, Hcl;
    change (closes [Close (T := T)]) with 1%nat; lia.
Qed.

(** When a setup step after the launch rejects, [automateBrowser] rejects
    with the wrapped reason and [browser.close()] has not run. *)
Lemma close_not_reached_when_setup_rejects {R : Type} (pup : Puppeteer R)
  (options : ScrapingOptions) (callback : AutomatedCallback)
  (browser : BrowserHandle R) (page : Page R) (rest : list (Page R))
  (e : reason) (w : world T) :
  launch_result pup = inr browser ->
  pages_result browser = inr (page :: rest) ->
  setViewport_result page = Some e \/
  (setViewport_result page = None /\
   evaluateOnNewDocument_result page = Some e) ->
  fst (automateBrowser pup options callback w) = Throw (Error e) /\
  closes (trace (snd (automateBrowser pup options callback w)))
  = closes (trace w).
Proof.
  intros Hl Hp Hs.
  unfold_effects. rewrite Hl. cbn -[puppeteer_args closes].
  rewrite Hp. cbn -[puppeteer_args closes].
  destruct Hs as [Hv | [Hv He]].
  - rewrite Hv. cbn -[puppeteer_args closes]. split; [reflexivity|].
    rewrite !closes_app. cbn. lia.
  - rewrite Hv, He. cbn -[puppeteer_args closes]. split; [reflexivity|].
    rewrite !closes_app. cbn. lia.
Qed.

End SessionFacts.

Section SessionClaims.

Import JsValue Interception Effects Browser Adapter Examples.

(** C2, on the code. The browser is launched and a setup step rejects
    ([setViewport], or the injection of the preload script), or the page
    script throws before giving a promise: [automateBrowser] rejects and
    [browser.close()] has not run. *)
Theorem close_skipped_when_setup_fails :
  let run (page : Page (list string)) :=
    automateBrowser (T := list string) (puppeteer_with page) default_options
      (fun pg => async_fn (getPages_script chapter_url pg))
      (initial (list string)) in
  let launched :=
    Launch (T := list string) true
      (puppeteer_args default_options user_agent) in
  (fst (run (viewport_fails_page chapter_images))
     = Throw (Error target_closed) /\
   trace (snd (run (viewport_fails_page chapter_images)))
     = [launched; Pages; SetViewport 1920 1080] /\
   closes (trace (snd (run (viewport_fails_page chapter_images)))) = 0%nat) /\
  (fst (run (preload_fails_page chapter_images))
     = Throw (Error target_closed) /\
   trace (snd (run (preload_fails_page chapter_images)))
     = [launched; Pages; SetViewport 1920 1080; EvaluateOnNewDocument] /\
   closes (trace (snd (run (preload_fails_page chapter_images)))) = 0%nat) /\
  (closes (trace (snd (automateBrowser (T := list string)
                         (puppeteer_with (healthy_page chapter_images))
                         default_options throwing_script
                         (initial (list string))))) = 0%nat) /\
  closes (trace (snd (run (healthy_page chapter_images)))) = 1%nat.
Proof. repeat split. Qed.

(** C3, on the code. A call of [automateBrowser] with a policy is the
    call without it; in [getPages] and [getMangaMeta], for every host and
    every URL, each navigation of the page script happens with no policy
    installed on the page; with a host on which every step succeeds,
    [getPages] navigates once, with no policy. *)
Theorem navigation_without_gate :
  (forall (T R : Type) (pup : Puppeteer R) (options : ScrapingOptions)
          (callback : AutomatedCallback (T := T)) (policy : Policy),
     automateBrowser_with_policy pup options callback policy
     = automateBrowser pup options callback) /\
  (forall options pup url callback m g,
     Forall (fun gate => gate = None)
       (gates (trace (getPages options pup (Some url) callback
                        {| memo := m; interception := g; trace := [] |})))) /\
  (forall Meta extract_meta options pup url callback m g,
     Forall (fun gate => gate = None)
       (gates (trace (getMangaMeta Meta extract_meta options pup (Some url)
                        callback
                        {| memo := m; interception := g; trace := [] |})))) /\
  gates (trace (getPages default_options
                  (puppeteer_with (healthy_page chapter_images))
                  (Some chapter_url) no_callback (initial (list string))))
  = [None].
Proof.
  split; [reflexivity|].
  split.
  { intros. unfold getPages, getPages_script. unfold_effects. run_cases.
    all: cbn; repeat constructor. }
  split.
  { intros. unfold getMangaMeta, getMangaMeta_script. unfold_effects.
    run_cases.
    all: cbn; repeat constructor. }
  reflexivity.
Qed.

End SessionClaims.

Section InterceptionClaims.

Import JsValue Interception Effects Browser Adapter Examples.

(** C4, on the code. [getPages] passes a policy whose domain rule
    blocks every address that starts with [https://hm.baidu.com/],
    together with a resource rule that unblocks scripts. The request of
    the page for [https://hm.baidu.com/hm.js] is nevertheless let
    through: [automateBrowser] installs no policy, so for every host
    and every handler, one that denies everything included, each
    request made during a navigation of [getPages] is allowed. *)
Theorem blocked_domain_request_not_denied :
  let hm_script := {| request_url := "https://hm.baidu.com/hm.js";
                      resourceType := "script" |} in
  (exists rule,
     domains getPages_policy = Some rule /\
     domain_method rule = block /\
     In "https://hm.baidu.com/" (value rule) /\
     String.prefix "https://hm.baidu.com/" (request_url hm_script) = true) /\
  (forall handler options pup url callback m g r,
     Forall (fun gate => request_decision handler gate r = allow)
       (gates (trace (getPages options pup (Some url) callback
                        {| memo := m; interception := g; trace := [] |})))) /\
  map (fun gate => request_decision (fun _ _ => deny) gate hm_script)
    (gates (trace (getPages default_options
                     (puppeteer_with (healthy_page chapter_images))
                     (Some chapter_url) no_callback
                     (initial (list string)))))
  = [allow].
Proof.
  split; [|split].
  - eexists. split; [reflexivity|]. split; [reflexivity|].
    split; [|reflexivity].
    cbn. do 10 right. left. reflexivity.
  - intros. unfold getPages, getPages_script. unfold_effects. run_cases.
    all: cbn; repeat constructor.
  - reflexivity.
Qed.

End InterceptionClaims.

Section ResultChannelFacts.

Import JsValue Interception Effects Browser Adapter.

Context {T : Type}.




End ResultChannelFacts.

Section OperationClaims.

Import JsValue Interception Effects Browser MangaPark Adapter Examples.

Variable Document : Type.
Variable readHtml : string -> reason + Document.
Variable select_search : Document -> SearchDocument.
Variable MangaParkLatestHotManga : Type.
Variable extract_latest : Document -> list MangaParkLatestHotManga.
Variable MangaParkMeta : Type.
Variable extract_meta : string -> reason + MangaParkMeta.
Variable toLocaleString : JsNumber.number -> string.
Variable options : ScrapingOptions.



(** C10. In [search] the branch that reports a missing [page] is never
    taken: a [page] left out is 1, and a [page] that is null or
    undefined after the default is not a number, so the check before it
    has already answered. *)
Theorem search_missing_page_unreachable (filters_page : jsval) :
  with_default JUndefined (JNumber (JsNumber.of_Z 1))
    = JNumber (JsNumber.of_Z 1) /\
  search_guard JUndefined = FetchResults /\
  search_guard filters_page <> PageMissing /\
  (is_nullish (with_default filters_page (JNumber (JsNumber.of_Z 1))) = true ->
   search_guard filters_page = PageNotANumber) /\
  (forall url callback,
     search Document readHtml select_search toLocaleString url filters_page
       callback =
     new_promise
       (if negb (String.eqb
                   (typeof (with_default filters_page
                              (JNumber (JsNumber.of_Z 1))))
                   "number")
        then failure page_must_be_a_number callback
        else
          try_catch
            (bind (read_html Document readHtml url None)
               (fun doc =>
                  bind (extract_search toLocaleString (select_search doc))
                    (fun data => success data callback)))
            (fun e => failure e callback))).
Proof.
  repeat split.
  - destruct filters_page; discriminate.
  - destruct filters_page; try discriminate; reflexivity.
  - intros url callback. unfold search, search_guard.
    destruct filters_page; reflexivity.
Qed.

End OperationClaims.

Section OperationWitnesses.

Import JsValue Interception Effects Browser MangaPark Adapter Examples.


(** C10 at a [page] that is [null]: the first check answers. *)
Lemma search_missing_page_unreachable_witness :
  search_guard JNull = PageNotANumber.
Proof.
  apply (proj1 (proj2 (proj2 (proj2
           (search_missing_page_unreachable SearchDocument
              (fun _ => inr empty_document) (fun d => d) plain_locale
              JNull))))).
  reflexivity.
Defined.

End OperationWitnesses.

Section ResultChannelClaims.

Import JsValue Interception Effects Browser MangaPark Adapter Examples.


Variable Document : Type.
Variable readHtml : string -> reason + Document.
Variable select_search : Document -> SearchDocument.
Variable MangaParkLatestHotManga : Type.
Variable extract_latest : Document -> list MangaParkLatestHotManga.
Variable MangaParkMeta : Type.
Variable extract_meta : string -> reason + MangaParkMeta.
Variable toLocaleString : JsNumber.number -> string.
Variable options : ScrapingOptions.



End ResultChannelClaims.

Section ResultChannelWitnesses.

Import JsValue Interception Effects Browser MangaPark Adapter Examples.


End ResultChannelWitnesses.

(** * Further properties of the code *)

(** ** The browser session *)

Section SessionProperties.

Import JsValue Interception Effects Browser Adapter Examples Hosts.

Context {T R : Type}.

Lemma Error_is_new (e0 : reason) : Error e0 <> e0.
Proof.
  destruct e0 as [s | name message]; [discriminate|].
  unfold Error. intros H. inversion H as [[Hname Hmessage]].
  subst name. cbn in Hmessage.
  destruct message as [|c m]; [discriminate Hmessage|].
  apply (f_equal String.length) in Hmessage. cbn in Hmessage. lia.
Qed.

(** X1. Whatever makes [automateBrowser] reject, the reason the caller
    gets is a new [Error] made from the reason of the first step that
    failed, never that reason itself: the reason of the launch, of
    [pages], of the missing first page, of [setViewport], of the
    injection of the preload script, of the page script when it throws
    or rejects, or the reason of [close], which comes instead of the
    outcome of the page script whenever [close] rejects. *)
Ltac fact :=
  first [ reflexivity
        | assumption
        | match goal with
          | H : _ = (_, _) |- _ => rewrite H; reflexivity
          end ].

Theorem automateBrowser_rejects_with_Error (pup : Puppeteer R)
  (options : ScrapingOptions) (callback : AutomatedCallback)
  (w : world T) (e : reason) :
  fst (automateBrowser pup options callback w) = Throw e ->
  exists e0,
    e = Error e0 /\ e <> e0 /\
    (launch_result pup = inl e0 \/
     exists browser,
       launch_result pup = inr browser /\
       (pages_result browser = inl e0 \/
        (pages_result browser = inr [] /\ e0 = no_page) \/
        exists page rest,
          pages_result browser = inr (page :: rest) /\
          (setViewport_result page = Some e0 \/
           (setViewport_result page = None /\
            (evaluateOnNewDocument_result page = Some e0 \/
             (evaluateOnNewDocument_result page = None /\
              (fst (callback page (after_setup pup options w))
                 = SyncThrow e0 \/
               (exists r,
                  fst (callback page (after_setup pup options w))
                    = Returned r /\
                  close_result browser = Some e0) \/
               (fst (callback page (after_setup pup options w))
                  = Returned (Throw e0) /\
                close_result browser = None)))))))).
Proof.
  unfold after_setup. unfold_effects.
  destruct (launch_result pup) as [el | browser] eqn:Hl;
    cbn -[puppeteer_args].
  { intros H. inversion H. exists el.
    split; [reflexivity|]. split; [apply Error_is_new|].
    left. fact. }
  destruct (pages_result browser) as [ep | [|page rest]] eqn:Hp;
    cbn -[puppeteer_args].
  { intros H. inversion H. exists ep.
    split; [reflexivity|]. split; [apply Error_is_new|].
    right. exists browser. split; [fact|]. left. fact. }
  { intros H. inversion H. exists no_page.
    split; [reflexivity|]. split; [apply Error_is_new|].
    right. exists browser. split; [fact|].
    right. left. split; fact. }
  destruct (setViewport_result page) as [ev |] eqn:Hv;
    cbn -[puppeteer_args].
  { intros H. inversion H. exists ev.
    split; [reflexivity|]. split; [apply Error_is_new|].
    right. exists browser. split; [fact|].
    right. right. exists page, rest. split; [fact|].
    left. fact. }
  destruct (evaluateOnNewDocument_result page) as [ee |] eqn:He;
    cbn -[puppeteer_args].
  { intros H. inversion H. exists ee.
    split; [reflexivity|]. split; [apply Error_is_new|].
    right. exists browser. split; [fact|].
    right. right. exists page, rest. split; [fact|].
    right. split; [fact|]. left. fact. }
  rewrite <- !app_assoc. cbn -[puppeteer_args].
  match goal with
  | |- context [callback page ?w0] =>
      destruct (callback page w0) as [[es | r] w1] eqn:Hc
  end; cbn -[puppeteer_args].
  { intros H. inversion H. exists es.
    split; [reflexivity|]. split; [apply Error_is_new|].
    right. exists browser. split; [fact|].
    right. right. exists page, rest. split; [fact|].
    right. split; [fact|]. right. split; [fact|].
    left. fact. }
  destruct (close_result browser) as [ec |] eqn:Hcl; cbn -[puppeteer_args].
  { intros H. inversion H. exists ec.
    split; [reflexivity|]. split; [apply Error_is_new|].
    right. exists browser. split; [fact|].
    right. right. exists page, rest. split; [fact|].
    right. split; [fact|]. right. split; [fact|].
    right. left. exists r. split; fact. }
  destruct r as [v | er]; cbn -[puppeteer_args]; intros H;
    [discriminate H|].
  inversion H. exists er.
  split; [reflexivity|]. split; [apply Error_is_new|].
  right. exists browser. split; [fact|].
  right. right. exists page, rest. split; [fact|].
  right. split; [fact|]. right. split; [fact|].
  right. right. split; fact.
Qed.

(** X2. When [puppeteer.launch] rejects, nothing else is attempted: no
    page is asked for, the page script is not called and [close] is not
    called; the call rejects with the wrapped reason. *)
Theorem launch_failure_ends_session (pup : Puppeteer R)
  (options : ScrapingOptions) (callback : AutomatedCallback)
  (w : world T) (e : reason) :
  launch_result pup = inl e ->
  automateBrowser pup options callback w =
  (Throw (Error e),
   {| memo := memo w;
      interception := None;
      trace :=
        (trace w ++
         [Launch (negb match debug options with
                       | Some b => b
                       | None => false
                       end)
            (puppeteer_args options (randomUserAgent pup))])%list |}).
Proof.
  intros Hl. unfold_effects. rewrite Hl. reflexivity.
Qed.

(** X3. When the launch and the setup succeed, the page script is called
    in the state [after_setup], [browser.close()] is the one call made
    after its promise settles, and the outcome is: the script's value
    when the script fulfils and [close] succeeds; the wrapped reason of
    the script when it rejects and [close] succeeds; the wrapped reason
    of [close] whenever [close] rejects, even after a script that
    fulfilled. *)
Theorem session_outcome (pup : Puppeteer R) (options : ScrapingOptions)
  (callback : AutomatedCallback) (browser : BrowserHandle R)
  (page : Page R) (rest : list (Page R)) (w w1 : world T) (r : result R) :
  launch_result pup = inr browser ->
  pages_result browser = inr (page :: rest) ->
  setViewport_result page = None ->
  evaluateOnNewDocument_result page = None ->
  callback page (after_setup pup options w) = (Returned r, w1) ->
  automateBrowser pup options callback w =
  (match close_result browser with
   | Some e => Throw (Error e)
   | None => match r with
             | Ok v => Ok v
             | Throw e => Throw (Error e)
             end
   end,
   {| memo := memo w1;
      interception := interception w1;
      trace := (trace w1 ++ [Close])%list |}).
Proof.
  intros Hl Hp Hv He Hc.
  unfold after_setup in Hc.
  unfold_effects. rewrite Hl. cbn -[puppeteer_args].
  rewrite Hp. cbn -[puppeteer_args].
  rewrite Hv, He. cbn -[puppeteer_args].
  rewrite <- !app_assoc. cbn -[puppeteer_args].
  rewrite Hc. cbn.
  destruct (close_result browser), r; reflexivity.
Qed.

End SessionProperties.

Section SessionWitnesses.

Import JsValue Interception Effects Browser Adapter Examples Hosts.

(** X1 at a navigation that times out in the page script of
    [getPages]. *)
Lemma automateBrowser_rejects_with_Error_witness :
  fst (automateBrowser (T := list string)
         (puppeteer_with (unreachable_page chapter_images)) default_options
         (fun pg => async_fn (getPages_script chapter_url pg))
         (initial (list string)))
  = Throw (Error navigation_timeout) /\
  exists e0,
    Error navigation_timeout = Error e0 /\ Error navigation_timeout <> e0.
Proof.
  split; [reflexivity|].
  destruct (automateBrowser_rejects_with_Error (T := list string)
              (puppeteer_with (unreachable_page chapter_images))
              default_options
              (fun pg => async_fn (getPages_script chapter_url pg))
              (initial (list string)) (Error navigation_timeout) eq_refl)
    as (e0 & He & Hne & _).
  exists e0. split; assumption.
Defined.

(** X2 at a host without a browser. *)
Lemma launch_failure_ends_session_witness :
  automateBrowser (T := list string) no_browser default_options
    (fun pg => async_fn (getPages_script chapter_url pg))
    (initial (list string)) =
  (Throw (Error launch_error),
   {| memo := [];
      interception := None;
      trace := [Launch true (puppeteer_args default_options user_agent)] |}).
Proof.
  apply (launch_failure_ends_session (T := list string) no_browser
           default_options
           (fun pg => async_fn (getPages_script chapter_url pg))
           (initial (list string)) launch_error).
  reflexivity.
Defined.

(** X3 at a script that fulfils on a browser whose [close] rejects. *)
Lemma session_outcome_witness :
  fst (automateBrowser (T := list string)
         (puppeteer_close_fails (healthy_page chapter_images))
         default_options
         (fun pg => async_fn (getPages_script chapter_url pg))
         (initial (list string)))
  = Throw (Error close_error).
Proof.
  rewrite (session_outcome (T := list string)
             (puppeteer_close_fails (healthy_page chapter_images))
             default_options
             (fun pg => async_fn (getPages_script chapter_url pg))
             {| pages_result := inr [healthy_page chapter_images];
                close_result := Some close_error |}
             (healthy_page chapter_images) []
             (initial (list string))
             (snd (async_fn (getPages_script chapter_url
                               (healthy_page chapter_images))
                     (after_setup
                        (puppeteer_close_fails (healthy_page chapter_images))
                        default_options (initial (list string)))))
             (Ok chapter_images)
             eq_refl eq_refl eq_refl eq_refl eq_refl).
  reflexivity.
Defined.

End SessionWitnesses.

Section SessionOrder.

Import JsValue Interception Effects Browser Adapter Examples Hosts.

Ltac navigated_or_not :=
  cbn;
  first [ left; reflexivity
        | right; do 3 eexists; split; reflexivity ].

(** X4. In [getPages] and [getMangaMeta], for every host, the page
    script navigates at most once, to the address the caller gave, and
    only after the browser was launched, its pages listed, the viewport
    set and the preload script injected, in this order. *)
Theorem setup_precedes_navigation :
  (forall options pup url callback m g,
     let tr := trace (getPages options pup (Some url) callback
                        {| memo := m; interception := g; trace := [] |}) in
     gates tr = [] \/
     exists headless args rest,
       tr = Launch headless args :: Pages :: SetViewport 1920 1080
            :: EvaluateOnNewDocument :: Goto url None :: rest /\
       gates rest = []) /\
  (forall Meta extract_meta options pup url callback m g,
     let tr := trace (getMangaMeta Meta extract_meta options pup (Some url)
                        callback
                        {| memo := m; interception := g; trace := [] |}) in
     gates tr = [] \/
     exists headless args rest,
       tr = Launch headless args :: Pages :: SetViewport 1920 1080
            :: EvaluateOnNewDocument :: Goto url None :: rest /\
       gates rest = []).
Proof.
  split.
  - intros. subst tr. unfold getPages, getPages_script. unfold_effects.
    run_cases; navigated_or_not.
  - intros. subst tr. unfold getMangaMeta, getMangaMeta_script.
    unfold_effects. run_cases; navigated_or_not.
Qed.

(** X5. The launch arguments are exactly the thirteen fixed switches
    followed by the user agent switch, with the proxy switch in front
    when a proxy is configured: the filter drops nothing, whatever the
    host name and the user agent are, and no argument is empty. *)
Theorem puppeteer_args_complete (options : ScrapingOptions) (ua : string) :
  puppeteer_args options ua =
  app match proxy options with
      | Some p => ["--proxy-server=" ++ host p ++ ":" ++
                   JsNumber.to_string (port p)]
      | None => []
      end
      [ "--no-sandbox";
        "--disable-setuid-sandbox";
        "--disable-accelerated-2d-canvas";
        "--no-zygote";
        "--renderer-process-limit=1";
        "--no-first-run";
        "--ignore-certificate-errors";
        "--ignore-certificate-errors-spki-list";
        "--disable-dev-shm-usage";
        "--disable-infobars";
        "--lang=en-US,en";
        "--window-size=1920x1080";
        "--disable-extensions";
        "--user-agent=" ++ ua ] /\
  Forall (fun a => a <> "") (puppeteer_args options ua).
Proof.
  unfold puppeteer_args.
  destruct (proxy options) as [p |];
    cbn -[JsNumber.to_string];
    (split; [reflexivity | repeat constructor; discriminate]).
Qed.

End SessionOrder.

(** ** Operations of the adapter *)

Section OperationProperties.

Import JsValue Interception Effects Browser MangaPark Adapter Examples Hosts.

Variable Document : Type.
Variable readHtml : string -> reason + Document.
Variable select_search : Document -> SearchDocument.
Variable MangaParkLatestHotManga : Type.
Variable extract_latest : Document -> list MangaParkLatestHotManga.
Variable toLocaleString : JsNumber.number -> string.
Variable options : ScrapingOptions.

Ltac only_the_result H :=
  cbn in H;
  repeat (destruct H as [H | H]; [try discriminate H |]);
  try contradiction;
  try (inversion H; subst; cbn; eexists; reflexivity).

(** X6. [getPages] hands a result to the callback only at the end of a
    complete session: for every host, a trace in which the callback gets
    a result starts with the launch, the setup, the navigation to the
    address given, the injection of the script tag, the wait for
    [a.img-link], the evaluation and [browser.close()], in this order,
    right before the callback. *)
Theorem getPages_result_follows_close (pup : Puppeteer (list string))
  (url : string) (callback : MangaCallback (list string))
  (m : list string) (g : option Policy) (data : list string) :
  let tr := trace (getPages options pup (Some url) callback
                     {| memo := m; interception := g; trace := [] |}) in
  In (Callback (Success data)) tr ->
  exists rest,
    tr = Launch (negb match debug options with
                      | Some b => b
                      | None => false
                      end)
           (puppeteer_args options (randomUserAgent pup))
         :: Pages :: SetViewport 1920 1080 :: EvaluateOnNewDocument
         :: Goto url None :: AddScriptTag :: WaitForSelector "a.img-link"
         :: Evaluate :: Close :: Callback (Success data) :: rest.
Proof.
  intros tr. subst tr. unfold getPages, getPages_script. unfold_effects.
  run_cases; intros H; only_the_result H.
Qed.

(** X7. A navigation that fails in [getPages] still closes the browser,
    once, before the caller hears of it, and no later step of the page
    script runs. The caller is handed the wrapped reason of the
    navigation, or the wrapped reason of [close] when [close] rejects
    too, and the promise is rejected with the same reason once the
    callback has returned. *)
Theorem getPages_navigation_failure (pup : Puppeteer (list string))
  (browser : BrowserHandle (list string)) (page : Page (list string))
  (rest : list (Page (list string))) (url : string)
  (callback : MangaCallback (list string)) (e : reason)
  (m : list string) (g : option Policy) :
  launch_result pup = inr browser ->
  pages_result browser = inr (page :: rest) ->
  setViewport_result page = None ->
  evaluateOnNewDocument_result page = None ->
  goto_result page url = Some e ->
  let reported := Error match close_result browser with
                        | Some closing => closing
                        | None => e
                        end in
  trace (getPages options pup (Some url) callback
           {| memo := m; interception := g; trace := [] |})
  = app [ Launch (negb match debug options with
                       | Some b => b
                       | None => false
                       end)
            (puppeteer_args options (randomUserAgent pup));
          Pages; SetViewport 1920 1080; EvaluateOnNewDocument;
          Goto url None; Close;
          Callback (Failure reported) ]
        match callback (Failure reported) with
        | None => [Settle (Failure reported)]
        | Some _ => []
        end.
Proof.
  intros Hl Hp Hv He Hg reported. subst reported.
  unfold getPages, getPages_script. unfold_effects.
  rewrite Hl. cbn -[puppeteer_args]. rewrite Hp. cbn -[puppeteer_args].
  rewrite Hv, He. cbn -[puppeteer_args]. rewrite Hg. cbn -[puppeteer_args].
  destruct (close_result browser) as [closing |];
    cbn -[puppeteer_args Error];
    match goal with
    | |- context [callback ?o] => destruct (callback o)
    end; reflexivity.
Qed.

(** X8. [search] checks the type of [page] and nothing else: with any
    number, zero, negative, fractional and NaN included, the address is
    fetched. *)
Theorem search_fetches_for_any_number (url : string) (n : JsNumber.number)
  (callback : MangaCallback (list MangaParkManga))
  (m : list string) (g : option Policy) :
  search_guard (JNumber n) = FetchResults /\
  exists rest,
    trace (search Document readHtml select_search toLocaleString url
             (JNumber n) callback
             {| memo := m; interception := g; trace := [] |})
    = ReadHtml url None :: rest.
Proof.
  split; [reflexivity|].
  unfold search. cbn [search_guard with_default typeof is_nullish].
  change (negb (String.eqb "number" "number")) with false. cbn iota.
  unfold_effects. run_cases; cbn; eexists; reflexivity.
Qed.


(** X10. What [search] does once [page] is a number, for a callback
    that returns: it fetches the address; when the fetch fails the
    caller gets the reason as it is, not wrapped, and [memo] is not
    touched; otherwise the caller gets the records extracted from the
    document, and [memo] is what the extraction leaves. Nothing else is
    called. *)
Theorem search_delivers_extraction (url : string) (n : JsNumber.number)
  (callback : MangaCallback (list MangaParkManga))
  (w : world (list MangaParkManga)) :
  (forall o, callback o = None) ->
  search Document readHtml select_search toLocaleString url (JNumber n)
    callback w =
  match readHtml url with
  | inl e =>
      {| memo := memo w;
         interception := interception w;
         trace := (trace w ++ [ReadHtml url None; Callback (Failure e);
                               Settle (Failure e)])%list |}
  | inr doc =>
      let '(data, memo') :=
        search_extract toLocaleString (memo w) (select_search doc) in
      {| memo := memo';
         interception := interception w;
         trace := (trace w ++ [ReadHtml url None; Callback (Success data);
                               Settle (Success data)])%list |}
  end.
Proof.
  intros Hcb.
  unfold search. cbn [search_guard with_default typeof is_nullish].
  change (negb (String.eqb "number" "number")) with false. cbn iota.
  unfold_effects. cbn -[search_extract].
  destruct (readHtml url) as [e | doc]; cbn -[search_extract].
  - rewrite Hcb. cbn. rewrite <- !app_assoc. reflexivity.
  - destruct (search_extract toLocaleString (memo w) (select_search doc))
      as [data memo'].
    cbn. rewrite Hcb. cbn. rewrite <- !app_assoc. reflexivity.
Qed.

End OperationProperties.

Section OperationPropertyWitnesses.

Import JsValue Interception Effects Browser MangaPark Adapter Examples Hosts.

(** X6 on a host where every step succeeds. *)
Lemma getPages_result_follows_close_witness :
  exists rest,
    trace (getPages default_options
             (puppeteer_with (healthy_page chapter_images))
             (Some chapter_url) no_callback (initial (list string)))
    = Launch true (puppeteer_args default_options user_agent)
      :: Pages :: SetViewport 1920 1080 :: EvaluateOnNewDocument
      :: Goto chapter_url None :: AddScriptTag
      :: WaitForSelector "a.img-link" :: Evaluate :: Close
      :: Callback (Success chapter_images) :: rest.
Proof.
  apply (getPages_result_follows_close default_options
           (puppeteer_with (healthy_page chapter_images)) chapter_url
           no_callback [] None chapter_images).
  cbn. do 9 right. left. reflexivity.
Defined.

(** X7 on a page whose navigation times out, with a browser that closes
    and with one whose [close] rejects. *)
Lemma getPages_navigation_failure_witness :
  trace (getPages default_options
           (puppeteer_with (unreachable_page chapter_images))
           (Some chapter_url) no_callback (initial (list string)))
  = [ Launch true (puppeteer_args default_options user_agent);
      Pages; SetViewport 1920 1080; EvaluateOnNewDocument;
      Goto chapter_url None; Close;
      Callback (Failure (Error navigation_timeout));
      Settle (Failure (Error navigation_timeout)) ] /\
  trace (getPages default_options
           (puppeteer_close_fails (unreachable_page chapter_images))
           (Some chapter_url) no_callback (initial (list string)))
  = [ Launch true (puppeteer_args default_options user_agent);
      Pages; SetViewport 1920 1080; EvaluateOnNewDocument;
      Goto chapter_url None; Close;
      Callback (Failure (Error close_error));
      Settle (Failure (Error close_error)) ].
Proof.
  split.
  - apply (getPages_navigation_failure default_options
             (puppeteer_with (unreachable_page chapter_images))
             {| pages_result := inr [unreachable_page chapter_images];
                close_result := None |}
             (unreachable_page chapter_images) [] chapter_url no_callback
             navigation_timeout [] None);
      reflexivity.
  - apply (getPages_navigation_failure default_options
             (puppeteer_close_fails (unreachable_page chapter_images))
             {| pages_result := inr [unreachable_page chapter_images];
                close_result := Some close_error |}
             (unreachable_page chapter_images) [] chapter_url no_callback
             navigation_timeout [] None);
      reflexivity.
Defined.


(** X10 at a search whose page has no result. *)
Lemma search_delivers_extraction_witness :
  search SearchDocument (fun _ => inr empty_document) (fun d => d)
    plain_locale search_url (JNumber (JsNumber.of_Z 1)) no_callback
    (initial (list MangaParkManga))
  = {| memo := [];
       interception := None;
       trace := [ReadHtml search_url None; Callback (Success []);
                 Settle (Success [])] |}.
Proof.
  rewrite (search_delivers_extraction SearchDocument
             (fun _ => inr empty_document) (fun d => d) plain_locale
             search_url (JsNumber.of_Z 1) no_callback
             (initial (list MangaParkManga)) (fun _ => eq_refl)).
  reflexivity.
Defined.

End OperationPropertyWitnesses.

(** ** The extraction of [search] *)

Section ExtractionFacts.

Import JsString MangaPark Cheerio RunGrouping Shapes.

Lemma combine_seq_map {A B : Type} (h : A -> B) (l : list A) (start : nat) :
  map (fun p => h (snd p)) (combine (seq start (List.length l)) l)
  = map h l.
Proof.
  revert start. induction l as [|x l IH]; intros start; cbn.
  - reflexivity.
  - rewrite IH. reflexivity.
Qed.

Lemma combine_seq_nth {A : Type} (l : list A) (start i j : nat) (x : A) :
  nth_error (combine (seq start (List.length l)) l) i = Some (j, x) ->
  j = (start + i)%nat /\ nth_error l i = Some x.
Proof.
  revert start i. induction l as [|y l IH]; intros start i H; cbn in H.
  - destruct i; discriminate H.
  - destruct i as [|i]; cbn in H.
    + inversion H. subst. split; [lia | reflexivity].
    + apply IH in H. destruct H as [Hj Hx]. split; [lia | exact Hx].
Qed.

Lemma walk_length {E : Type} (is_marker : E -> bool) (text_of : E -> string)
  (buffer : list string) (els : list E) :
  List.length (walk is_marker text_of buffer els)
  = List.length (filter is_marker els).
Proof.
  revert buffer. induction els as [|el rest IH]; intros buffer; cbn.
  - reflexivity.
  - destruct (is_marker el); cbn; rewrite IH; reflexivity.
Qed.



Lemma authors_groups_count (memo : list string) (doc : SearchDocument) :
  List.length (fst (authors_pass memo doc))
  = List.length (filter authors_marker (author_siblings doc)).
Proof. rewrite authors_pass_walk. cbn [fst]. apply walk_length. Qed.

End ExtractionFacts.

Section ExtractionProperties.

Import JsString MangaPark Cheerio RunGrouping Shapes Examples.

(** X11. [search] builds one record for each [h2 > a], in document
    order, whatever the other selections hold: the title is the anchor's
    [title] (empty when missing) and the address is the site's origin
    followed by the [href], or by the word "undefined" when the anchor
    has none. A page without such an anchor gives no record. *)
Theorem search_records_follow_titles
  (toLocaleString : JsNumber.number -> string) (memo : list string)
  (doc : SearchDocument) :
  let data := fst (search_extract toLocaleString memo doc) in
  List.length data = List.length (title_anchors doc) /\
  map title data = map (fun a => or_else (snd a) "") (title_anchors doc) /\
  map url data =
    map (fun a => "https://v2.mangapark.net" ++ template (fst a))
        (title_anchors doc).
Proof.
  unfold search_extract.
  destruct (authors_pass memo doc) as [a m1].
  destruct (genres_pass m1 doc) as [g m2].
  cbn [fst].
  set (titleURLs := map _ (title_anchors doc)).
  repeat split.
  - rewrite length_map, length_combine, length_seq, Nat.min_id.
    unfold titleURLs. apply length_map.
  - rewrite map_map.
    rewrite (map_ext _ (fun p => snd (snd p)))
      by (intros [i [u t]]; reflexivity).
    rewrite (combine_seq_map (fun x => snd x) titleURLs 0).
    unfold titleURLs. rewrite map_map. apply map_ext.
    intros [h t]. reflexivity.
  - rewrite map_map.
    rewrite (map_ext _ (fun p => fst (snd p)))
      by (intros [i [u t]]; reflexivity).
    rewrite (combine_seq_map (fun x => fst x) titleURLs 0).
    unfold titleURLs. rewrite map_map. apply map_ext.
    intros [h t]. reflexivity.
Qed.

(** X12. A pass returns exactly one group for each marker of the
    sequence it walks, whatever the buffer holds when it starts: the
    authors pass one for each label, the genres pass one for each anchor
    that no anchor follows. *)
Theorem one_group_per_marker (memo : list string) (doc : SearchDocument) :
  List.length (fst (authors_pass memo doc))
    = List.length (filter authors_marker (author_siblings doc)) /\
  List.length (fst (genres_pass memo doc))
    = List.length (filter genres_marker (genre_anchors doc)).
Proof.
  rewrite authors_pass_walk, genres_pass_walk. cbn [fst].
  split; apply walk_length.
Qed.

(** X13. The records are paired with the groups by position only: a
    record whose position is not below the number of author labels has
    no authors ([undefined]), and nothing reports the mismatch. *)
Theorem authors_missing_past_last_label
  (toLocaleString : JsNumber.number -> string) (memo : list string)
  (doc : SearchDocument) (i : nat) (rec : MangaParkManga) :
  nth_error (fst (search_extract toLocaleString memo doc)) i = Some rec ->
  (List.length (filter authors_marker (author_siblings doc)) <= i)%nat ->
  authors rec = None.
Proof.
  intros Hrec Hlen.
  pose proof (authors_groups_count memo doc) as Hcount.
  unfold search_extract in Hrec.
  destruct (authors_pass memo doc) as [a m1].
  destruct (genres_pass m1 doc) as [g m2].
  cbn [fst] in *.
  rewrite nth_error_map in Hrec.
  destruct (nth_error (combine _ _) i) as [[j [u t]] |] eqn:Hn;
    [|discriminate Hrec].
  apply combine_seq_nth in Hn. destruct Hn as [Hj _].
  cbn in Hrec. inversion Hrec. cbn.
  apply nth_error_None. lia.
Qed.

End ExtractionProperties.

Section GenreProperties.

Import JsString MangaPark Cheerio RunGrouping Shapes Examples.



(** X15. Whatever [memo] holds when a search starts, the search leaves
    it empty as soon as the page has one anchor in a [div.field.last]:
    the last such anchor always hands the buffer back. Only a page
    without any of these anchors can pass texts on to the next search. *)
Theorem search_extract_empties_memo
  (toLocaleString : JsNumber.number -> string) (memo : list string)
  (doc : SearchDocument) :
  genre_anchors doc <> [] ->
  snd (search_extract toLocaleString memo doc) = [].
Proof.
  intros Hne.
  pose proof (genres_pass_leaves_nothing
                (snd (authors_pass memo doc)) doc Hne) as H.
  unfold search_extract.
  destruct (authors_pass memo doc) as [a m1]. cbn [snd] in H.
  destruct (genres_pass m1 doc) as [g m2].
  exact H.
Qed.

End GenreProperties.

Section ExtractionWitnesses.

Import JsString MangaPark Cheerio RunGrouping Shapes Examples.

Lemma authors_missing_past_last_label_witness :
  option_map authors
    (nth_error (fst (search_extract plain_locale [] unlabelled_document)) 0)
  = Some None.
Proof.
  destruct (nth_error
              (fst (search_extract plain_locale [] unlabelled_document)) 0)
    as [rec|] eqn:Hrec; [|discriminate Hrec].
  cbn [option_map]. f_equal.
  apply (authors_missing_past_last_label plain_locale []
           unlabelled_document 0 rec Hrec).
  cbn. lia.
Defined.


Lemma search_extract_empties_memo_witness :
  snd (search_extract plain_locale ["left"; "over"] abcd_document) = [].
Proof.
  apply (search_extract_empties_memo plain_locale ["left"; "over"]
           abcd_document).
  discriminate.
Defined.

End ExtractionWitnesses.

(** ** The address of a search *)

Section TextFacts.

Import JsString JsText.

Lemma append_assoc (a b c : string) : (a ++ b) ++ c = a ++ (b ++ c).
Proof. induction a as [|x a IH]; cbn; [reflexivity | rewrite IH; reflexivity]. Qed.

Lemma append_nil_r (a : string) : a ++ "" = a.
Proof. induction a as [|x a IH]; cbn; [reflexivity | rewrite IH; reflexivity]. Qed.

Lemma chars_app (a b : string) :
  list_ascii_of_string (a ++ b)
  = (list_ascii_of_string a ++ list_ascii_of_string b)%list.
Proof. induction a as [|x a IH]; cbn; [reflexivity | rewrite IH; reflexivity]. Qed.

Lemma join_cons (sep x : string) (rest : list string) :
  rest <> [] -> join sep (x :: rest) = x ++ sep ++ join sep rest.
Proof. destruct rest; [contradiction | reflexivity]. Qed.

Lemma join_app (sep : string) (l1 l2 : list string) :
  l1 <> [] -> l2 <> [] ->
  join sep (l1 ++ l2) = join sep l1 ++ sep ++ join sep l2.
Proof.
  intros H1 H2. induction l1 as [|x l1 IH]; [contradiction|].
  destruct l1 as [|y l1].
  - cbn [app]. apply join_cons. exact H2.
  - change ((x :: y :: l1) ++ l2)%list with (x :: ((y :: l1) ++ l2))%list.
    rewrite join_cons by discriminate.
    rewrite IH by discriminate.
    rewrite (join_cons sep x (y :: l1)) by discriminate.
    rewrite !append_assoc. reflexivity.
Qed.

(** An escape holds a percent sign and digits and letters only. *)
Lemma escape_char_chars (c : ascii) :
  forallb (fun x => is_unreserved x || Ascii.eqb x "%")
    (list_ascii_of_string (escape_char c)) = true.
Proof.
  destruct c as [[|] [|] [|] [|] [|] [|] [|] [|]]; vm_compute; reflexivity.
Qed.

Lemma encodeURIComponent_chars (s : string) :
  forallb (fun x => is_unreserved x || Ascii.eqb x "%")
    (list_ascii_of_string (encodeURIComponent s)) = true.
Proof.
  induction s as [|c r IH]; cbn [encodeURIComponent].
  - reflexivity.
  - rewrite chars_app, forallb_app, IH, andb_true_r.
    destruct (is_unreserved c) eqn:Hc.
    + cbn. rewrite Hc. reflexivity.
    + apply escape_char_chars.
Qed.

Lemma encodeURIComponent_no_ampersand (s : string) :
  ~ In "&"%char (list_ascii_of_string (encodeURIComponent s)).
Proof.
  intros Hin.
  pose proof (encodeURIComponent_chars s) as H.
  rewrite forallb_forall in H. specialize (H _ Hin).
  vm_compute in H. discriminate H.
Qed.

End TextFacts.

Section SearchUrlProperties.

Import JsString JsText JsValue SearchUrl Shapes.

(** X16. [encodeURIComponent] leaves letters, digits and
    [- _ . ! ~ * ' ( )] and writes everything else with percent signs
    and hexadecimal digits, so no text a caller searches for can add a
    parameter to the address: the query argument never holds an
    ampersand. A title and an author given together are written one
    after the other without anything between them. *)
Theorem query_cannot_add_parameters (query : MangaSearch) :
  (forall s, Forall (fun c => is_unreserved c = true \/ c = "%"%char)
               (list_ascii_of_string (encodeURIComponent s))) /\
  ~ In "&"%char (list_ascii_of_string (queryParam query)) /\
  (forall t a,
     queryParam (QueryObject (Some t) (Some a))
     = "q=" ++ encodeURIComponent t ++ "autart=" ++ encodeURIComponent a).
Proof.
  assert (Hboth : forall t a,
            queryParam (QueryObject (Some t) (Some a))
            = "q=" ++ encodeURIComponent t ++ "autart=" ++
              encodeURIComponent a).
  { intros t a. reflexivity. }
  split; [|split].
  - intros s. apply Forall_forall. intros c Hin.
    pose proof (encodeURIComponent_chars s) as H.
    rewrite forallb_forall in H. specialize (H _ Hin).
    apply orb_true_iff in H. destruct H as [H | H].
    + left. exact H.
    + right. apply Ascii.eqb_eq. exact H.
  - assert (Hq : forall s, ~ In "&"%char
                   (list_ascii_of_string ("q=" ++ encodeURIComponent s))).
    { intros s [H | [H | H]]; try discriminate H.
      exact (encodeURIComponent_no_ampersand s H). }
    assert (Ha : forall s, ~ In "&"%char
                   (list_ascii_of_string ("autart=" ++ encodeURIComponent s))).
    { intros s H. cbn in H.
      repeat (destruct H as [H | H]; [discriminate H|]).
      exact (encodeURIComponent_no_ampersand s H). }
    destruct query as [|s|t a].
    + intros [].
    + destruct s as [|c r]; [intros []|]. apply Hq.
    + destruct t as [t|], a as [a|].
      * rewrite (Hboth t a).
        change ("q=" ++ encodeURIComponent t ++ "autart=" ++
                encodeURIComponent a)
          with ("q=" ++ (encodeURIComponent t ++
                         ("autart=" ++ encodeURIComponent a))).
        rewrite <- append_assoc, chars_app.
        intros H. apply in_app_or in H.
        destruct H as [H | H]; [exact (Hq t H) | exact (Ha a H)].
      * replace (queryParam (QueryObject (Some t) None))
          with ("q=" ++ encodeURIComponent t)
          by reflexivity.
        apply Hq.
      * replace (queryParam (QueryObject None (Some a)))
          with ("autart=" ++ encodeURIComponent a)
          by reflexivity.
        apply Ha.
      * intros [].
  - exact Hboth.
Qed.

Lemma genre_table_regular :
  forallb (fun kv =>
             match lookup MangaParkGenres (fst kv) with
             | Some v => String.eqb v (hyphenate (toLowerCase (fst kv)))
             | None => false
             end) MangaParkGenres = true.
Proof. vm_compute. reflexivity. Qed.

Lemma genre_lookup (g : string) :
  In g (map fst MangaParkGenres) ->
  lookup MangaParkGenres g = Some (hyphenate (toLowerCase g)).
Proof.
  intros Hin. apply in_map_iff in Hin. destruct Hin as [kv [Hk Hin]].
  pose proof genre_table_regular as H.
  rewrite forallb_forall in H. specialize (H kv Hin). rewrite Hk in H.
  destruct (lookup MangaParkGenres g) as [v|]; [|discriminate H].
  apply String.eqb_eq in H. rewrite H. reflexivity.
Qed.

(** X17. A list of genres to include or to exclude, all of them names of
    the enum [MangaParkGenres], is sent as the names in lower case with
    a hyphen for each space, separated by commas, in the order given. *)
Theorem genre_names_sent_as_slugs (function_text : string -> string)
  (name : string) (gs : list string) :
  gs <> [] ->
  Forall (fun g => In g (map fst MangaParkGenres)) gs ->
  genres_param function_text name (Some gs)
  = name ++ "=" ++ join "," (map (fun g => hyphenate (toLowerCase g)) gs).
Proof.
  intros Hne Hall.
  destruct gs as [|g gs]; [contradiction|].
  unfold genres_param.
  rewrite (map_ext_in _ (fun g => hyphenate (toLowerCase g))).
  - reflexivity.
  - intros x Hx. rewrite Forall_forall in Hall.
    unfold get. rewrite (genre_lookup x (Hall x Hx)). reflexivity.
Qed.

Lemma lookup_key (table : list (string * string)) (key value : string) :
  lookup table key = Some value -> In key (map fst table).
Proof.
  induction table as [|[k v] rest IH]; cbn; intros H.
  - discriminate H.
  - destruct (String.eqb k key) eqn:Hk.
    + left. apply String.eqb_eq. exact Hk.
    + right. apply IH. exact H.
Qed.

Lemma non_empty_tail (order page : string) (front : list string) :
  join "&" (non_empty (app front ["orderby=" ++ order; "st-ss=0";
                                  "page=" ++ page]))
  = match non_empty front with
    | [] => ""
    | _ :: _ => join "&" (non_empty front) ++ "&"
    end ++ "orderby=" ++ order ++ "&st-ss=0&page=" ++ page.
Proof.
  unfold non_empty at 1. rewrite filter_app. fold (non_empty front).
  change (filter _ ["orderby=" ++ order; "st-ss=0"; "page=" ++ page])
    with ["orderby=" ++ order; "st-ss=0"; "page=" ++ page].
  destruct (non_empty front) as [|x l] eqn:Hf.
  - reflexivity.
  - rewrite join_app by discriminate.
    rewrite append_assoc.
    reflexivity.
Qed.

(** X18. Every address [search] builds ends with the order, the
    argument [st-ss=0] and the page, in this order, after the arguments
    that are not empty, all joined by ampersands. The order is the
    value of the enum for one of its five keys; it is written
    [undefined] for a name that is neither a key of [MangaParkOrderBy]
    nor a property every object inherits, and as the engine prints the
    inherited function for a name such as [constructor] or [toString].
    Without a query and without filters the address is the one of the
    most viewed mangas, page 1. *)
Theorem search_url_ends_with_order_and_page
  (function_text : string -> string) (query : MangaSearch)
  (filters : MangaParkOptions) :
  let front :=
    non_empty (firstn 7 (search_args function_text query filters)) in
  let order := coalesce (orderBy filters) "most_views" in
  search_url function_text query filters
  = "https://v2.mangapark.net/search?" ++
    match front with
    | [] => ""
    | _ :: _ => join "&" front ++ "&"
    end ++
    "orderby=" ++ print function_text (get MangaParkOrderBy order) ++
    "&st-ss=0&page=" ++
    JsValue.template (with_default (page filters) (JNumber (JsNumber.of_Z 1)))
  /\
  (forall key value,
     In (key, value) MangaParkOrderBy ->
     print function_text (get MangaParkOrderBy key) = value) /\
  (forall name,
     ~ In name (map fst MangaParkOrderBy) ->
     name <> "__proto__" ->
     ~ In name Object_prototype_functions ->
     print function_text (get MangaParkOrderBy name) = "undefined") /\
  (forall name,
     In name Object_prototype_functions ->
     print function_text (get MangaParkOrderBy name) = function_text name) /\
  search_url function_text QueryNull no_filters
  = "https://v2.mangapark.net/search?orderby=views_a&st-ss=0&page=1".
Proof.
  split; [|split; [|split; [|split]]].
  - unfold search_url. f_equal.
    unfold search_args.
    cbn [firstn].
    match goal with
    | |- join "&" (non_empty [?a; ?b; ?c; ?d; ?e; ?f; ?g; ?h; ?i; ?j]) = _ =>
        change [a; b; c; d; e; f; g; h; i; j]
          with ([a; b; c; d; e; f; g] ++ [h; i; j])%list
    end.
    apply non_empty_tail.
  - intros key value Hin. cbn in Hin.
    repeat (destruct Hin as [Hin | Hin];
            [inversion Hin; subst; reflexivity|]).
    contradiction.
  - intros name Hkey Hproto Hfun. unfold get.
    destruct (lookup MangaParkOrderBy name) as [v|] eqn:Hl.
    + exfalso. apply Hkey. apply (lookup_key _ _ _ Hl).
    + destruct (String.eqb name "__proto__") eqn:Hp.
      * apply String.eqb_eq in Hp. contradiction.
      * destruct (existsb (String.eqb name) Object_prototype_functions)
          eqn:Hex; [|reflexivity].
        exfalso. apply Hfun. apply existsb_exists in Hex.
        destruct Hex as [x [Hx Heq]]. apply String.eqb_eq in Heq.
        subst x. exact Hx.
  - intros name Hin. cbn in Hin.
    repeat (destruct Hin as [Hin | Hin]; [subst name; reflexivity|]).
    contradiction.
  - reflexivity.
Qed.

End SearchUrlProperties.


(** ** The page of a manga *)

Section MetaPageFacts.

Import JsString JsText MetaPage.

Lemma split_plain (sep : ascii) (w : string) :
  ~ In sep (list_ascii_of_string w) -> split sep w = [w].
Proof.
  induction w as [|c w IH]; intros Hno.
  - reflexivity.
  - cbn [split].
    destruct (Ascii.eqb c sep) eqn:Hc.
    + apply Ascii.eqb_eq in Hc. exfalso. apply Hno. left. exact Hc.
    + rewrite IH; [reflexivity|].
      intros Hin. apply Hno. right. exact Hin.
Qed.

Lemma split_word (sep : ascii) (w rest : string) :
  ~ In sep (list_ascii_of_string w) ->
  split sep (w ++ String sep rest) = w :: split sep rest.
Proof.
  induction w as [|c w IH]; intros Hno.
  - cbn. rewrite Ascii.eqb_refl. reflexivity.
  - cbn [append split].
    destruct (Ascii.eqb c sep) eqn:Hc.
    + apply Ascii.eqb_eq in Hc. exfalso. apply Hno. left. exact Hc.
    + rewrite IH; [reflexivity|].
      intros Hin. apply Hno. right. exact Hin.
Qed.

(** Cutting at a separator undoes joining with it, for words that do
    not hold it. *)
Lemma split_join (sep : ascii) (ws : list string) :
  ws <> [] ->
  Forall (fun w => ~ In sep (list_ascii_of_string w)) ws ->
  split sep (join (String sep EmptyString) ws) = ws.
Proof.
  intros Hne Hall. induction Hall as [|w ws Hw Hws IH]; [contradiction|].
  destruct ws as [|w' ws].
  - apply split_plain. exact Hw.
  - rewrite join_cons by discriminate.
    change (String sep "" ++ join (String sep "") (w' :: ws))
      with (String sep (join (String sep "") (w' :: ws))).
    rewrite split_word by exact Hw.
    rewrite IH by discriminate. reflexivity.
Qed.

Lemma assign_length {A : Type} (i : nat) (x : A) (items : list A) :
  List.length (assign i x items) = List.length items.
Proof.
  revert i. induction items as [|y items IH]; intros i.
  - destruct i; reflexivity.
  - destruct i; cbn; [reflexivity | rewrite IH; reflexivity].
Qed.

Lemma assign_nth {A : Type} (i j : nat) (x d : A) (items : list A) :
  (i < List.length items)%nat ->
  nth i (assign j x items) d = if Nat.eqb j i then x else nth i items d.
Proof.
  revert i j. induction items as [|y items IH]; intros i j Hlt.
  - cbn in Hlt. lia.
  - destruct j as [|j], i as [|i]; cbn; try reflexivity.
    apply IH. cbn in Hlt. lia.
Qed.

Lemma find_snoc {A : Type} (p : A -> bool) (l : list A) (x : A) :
  find p (l ++ [x]) =
  match find p l with
  | Some y => Some y
  | None => if p x then Some x else None
  end.
Proof.
  induction l as [|y l IH]; cbn.
  - reflexivity.
  - destruct (p y); [reflexivity | exact IH].
Qed.

(** Whether a block is one of the source with index [i]. *)
Lemma source_fold (vs : list Volume) (acc : list (list MangaChapter)) :
  let step := fun acc v =>
                match bucket_index (volume_version v) with
                | Some i => assign i (volume_chapters v) acc
                | None => acc
                end in
  List.length (fold_left step vs acc) = List.length acc /\
  forall i, (i < List.length acc)%nat ->
    nth i (fold_left step vs acc) [] =
    match find (fun v => match bucket_index (volume_version v) with
                         | Some j => Nat.eqb j i
                         | None => false
                         end) (rev vs) with
    | Some v => volume_chapters v
    | None => nth i acc []
    end.
Proof.
  intros step. revert acc.
  induction vs as [|v vs IH]; intros acc.
  - split; [reflexivity | intros; reflexivity].
  - cbn [fold_left rev].
    destruct (IH (step acc v)) as [Hlen Hnth].
    assert (Hstep : List.length (step acc v) = List.length acc).
    { unfold step. destruct (bucket_index (volume_version v));
        [apply assign_length | reflexivity]. }
    split; [rewrite Hlen; exact Hstep|].
    intros i Hi. rewrite Hnth by (rewrite Hstep; exact Hi).
    rewrite find_snoc.
    destruct (find _ (rev vs)); [reflexivity|].
    unfold step.
    destruct (bucket_index (volume_version v)) as [j|]; [|reflexivity].
    rewrite assign_nth by exact Hi.
    destruct (Nat.eqb j i); reflexivity.
Qed.

Lemma match_rank_here_shape (s m : string) :
  match_rank_here s = Some m ->
  exists ds w1 w2,
    m = ds ++ String w1 (String w2 EmptyString) /\
    ds <> EmptyString /\
    forallb is_digit (list_ascii_of_string ds) = true /\
    is_word w1 = true /\ is_word w2 = true.
Proof.
  revert m. induction s as [|c r IH]; intros m H; cbn [match_rank_here] in H.
  - discriminate H.
  - destruct (is_digit c) eqn:Hc; [|discriminate H].
    destruct (match_rank_here r) as [m'|] eqn:Hr.
    + inversion H; subst m.
      destruct (IH m' eq_refl) as (ds & w1 & w2 & Hm & Hne & Hds & H1 & H2).
      exists (String c ds), w1, w2. subst m'.
      repeat split; try assumption; try discriminate.
      cbn. rewrite Hc, Hds. reflexivity.
    + destruct r as [|w1 [|w2 r']]; try discriminate H.
      destruct (is_word w1) eqn:H1; [|discriminate H].
      destruct (is_word w2) eqn:H2; [|discriminate H].
      inversion H; subst m.
      exists (String c EmptyString), w1, w2.
      repeat split; try assumption; try discriminate.
      cbn. rewrite Hc. reflexivity.
Qed.

Lemma match_rank_shape (s m : string) :
  match_rank s = Some m ->
  exists ds w1 w2,
    m = ds ++ String w1 (String w2 EmptyString) /\
    ds <> EmptyString /\
    forallb is_digit (list_ascii_of_string ds) = true /\
    is_word w1 = true /\ is_word w2 = true.
Proof.
  induction s as [|c r IH]; intros H.
  - cbn in H. discriminate H.
  - cbn [match_rank] in H.
    destruct (match_rank_here (String c r)) as [m'|] eqn:Hh.
    + inversion H; subst m'. exact (match_rank_here_shape _ _ Hh).
    + apply IH. exact H.
Qed.

End MetaPageFacts.

Section MetaPageProperties.

Import JsString JsText MetaPage.

(** X19. The main title of [getMangaMeta] is the heading without its
    last word, whatever that word is: for a heading made of words
    separated by single spaces, the words but the last, and the empty
    string for a heading of one word. *)
Theorem mainTitle_drops_last_word (ws : list string) :
  ws <> [] ->
  Forall (fun w => ~ In " "%char (list_ascii_of_string w)) ws ->
  mainTitle (join " " ws) = join " " (removelast ws).
Proof.
  intros Hne Hall. unfold mainTitle, init_of.
  rewrite (split_join " " ws Hne Hall). reflexivity.
Qed.

(** X20. The chapters of [getMangaMeta] always come in six lists. The
    list of a source holds the chapters of the last [div.volumes] of the
    page labelled with that source, the earlier ones being overwritten,
    and is empty without such a block; a block whose label is none of
    the six sources is left out of the result. *)
Theorem last_block_of_a_source_wins (vs : list Volume) (i : nat) :
  (i < 6)%nat ->
  List.length (sourceChapters vs) = 6%nat /\
  nth i (sourceChapters vs) [] =
  match find (fun v => match bucket_index (volume_version v) with
                       | Some j => Nat.eqb j i
                       | None => false
                       end) (rev vs) with
  | Some v => volume_chapters v
  | None => []
  end.
Proof.
  intros Hi. unfold sourceChapters.
  destruct (source_fold vs [[]; []; []; []; []; []]) as [Hlen Hnth].
  split; [exact Hlen|].
  rewrite Hnth by exact Hi.
  destruct (find _ (rev vs)); [reflexivity|].
  do 6 (destruct i as [|i]; [reflexivity|]). cbn in Hi. lia.
Qed.

(** X21. The popularity [getMangaMeta] reports is either the question
    mark or one digit or more followed by two characters among letters,
    digits and the underscore, as in a rank like [12th]. *)
Theorem popularity_is_rank_or_unknown (cell : string) :
  popularity_of cell = "?" \/
  exists ds w1 w2,
    popularity_of cell = ds ++ String w1 (String w2 EmptyString) /\
    ds <> EmptyString /\
    forallb is_digit (list_ascii_of_string ds) = true /\
    is_word w1 = true /\ is_word w2 = true.
Proof.
  unfold popularity_of.
  destruct (match_rank (trim cell)) as [m|] eqn:Hm.
  - right. exact (match_rank_shape _ _ Hm).
  - left. reflexivity.
Qed.

(** X22. The chapters of one block follow its chapter anchors, one for
    one and in order, and take their times by position: a chapter at a
    position the block has no [span.time] for has no time
    ([undefined]). *)
Theorem chapters_follow_anchors (v : Volume) :
  map name (volume_chapters v) = map snd (chapter_anchors v) /\
  forall i c,
    nth_error (volume_chapters v) i = Some c ->
    uploadWhen c = nth_error (map trim (time_texts v)) i /\
    ((List.length (time_texts v) <= i)%nat -> uploadWhen c = None).
Proof.
  unfold volume_chapters.
  set (mangaChapters := map _ (chapter_anchors v)).
  split.
  - rewrite map_map.
    rewrite (map_ext _ (fun p => fst (snd p)))
      by (intros [i [n u]]; reflexivity).
    rewrite (combine_seq_map (fun x => fst x) mangaChapters 0).
    unfold mangaChapters. rewrite map_map. apply map_ext.
    intros [h t]. reflexivity.
  - intros i c Hc.
    rewrite nth_error_map in Hc.
    destruct (nth_error (combine _ _) i) as [[j [n u]] |] eqn:Hn;
      [|discriminate Hc].
    apply combine_seq_nth in Hn. destruct Hn as [Hj _].
    cbn in Hc. inversion Hc. cbn. subst j.
    split; [reflexivity|].
    intros Hlen. apply nth_error_None. rewrite length_map. exact Hlen.
Qed.

End MetaPageProperties.

(** ** The page of the latest updates *)

Section LatestPageFacts.

Import JsString JsText.

Lemma split_by_plain (w : string) :
  ~ In ","%char (list_ascii_of_string w) -> split_by ", " w = [w].
Proof.
  unfold split_by.
  induction w as [|c w IH]; intros Hno.
  - reflexivity.
  - cbn [split_by_from String.prefix].
    destruct (ascii_dec "," c) as [Hc | Hc].
    + exfalso. apply Hno. left. symmetry. exact Hc.
    + rewrite IH; [reflexivity|].
      intros Hin. apply Hno. right. exact Hin.
Qed.

Lemma split_by_word (w rest : string) :
  ~ In ","%char (list_ascii_of_string w) ->
  split_by ", " (w ++ ", " ++ rest) = w :: split_by ", " rest.
Proof.
  unfold split_by.
  induction w as [|c w IH]; intros Hno.
  - destruct rest; reflexivity.
  - change (String c w ++ ", " ++ rest) with (String c (w ++ ", " ++ rest)).
    cbn [split_by_from String.prefix].
    destruct (ascii_dec "," c) as [Hc | Hc].
    + exfalso. apply Hno. left. symmetry. exact Hc.
    + rewrite IH; [reflexivity|].
      intros Hin. apply Hno. right. exact Hin.
Qed.

Lemma split_by_join (gs : list string) :
  gs <> [] ->
  Forall (fun g => ~ In ","%char (list_ascii_of_string g)) gs ->
  split_by ", " (join ", " gs) = gs.
Proof.
  intros Hne Hall. induction Hall as [|g gs Hg Hgs IH]; [contradiction|].
  destruct gs as [|g' gs].
  - apply split_by_plain. exact Hg.
  - rewrite join_cons by discriminate.
    rewrite split_by_word by exact Hg.
    rewrite IH by discriminate. reflexivity.
Qed.

End LatestPageFacts.

Section LatestPageProperties.

Import JsString JsText LatestPage.

(** X23. The genres of an item of [getLatestUpdates] whose one
    [div.mb-2.gens] reads, once trimmed, as names separated by a comma
    and a space are these names, in order; the names themselves are
    not trimmed. *)
Theorem latest_genres_are_the_names_listed (item : LatestItem)
  (text : string) (gs : list string) :
  gens_texts item = [text] ->
  trim text = join ", " gs ->
  gs <> [] ->
  Forall (fun g => ~ In ","%char (list_ascii_of_string g)) gs ->
  genres (latest_record item) = gs.
Proof.
  intros Htexts Htrim Hne Hall.
  unfold latest_record. cbn [genres].
  rewrite Htexts. cbn [flat_map]. rewrite app_nil_r, Htrim.
  apply split_by_join; assumption.
Qed.

End LatestPageProperties.

(** ** The methods on the pages they read *)

Section MethodProperties.

Import JsValue Interception Effects Browser MangaPark Adapter Hosts.

Variable Document : Type.
Variable readHtml : string -> reason + Document.
Variable select_search : Document -> SearchDocument.
Variable select_latest : Document -> list LatestPage.LatestItem.
Variable load : string -> MetaPage.MetaDocument.
Variable toLocaleString : JsNumber.number -> string.
Variable function_text : string -> string.
Variable options : ScrapingOptions.

(** X24. [search] with a title and no filters fetches the search
    address with the escaped title as [q], ordered by views, page 1, as
    its first step. *)
Theorem search_by_title_address (title : string)
  (callback : MangaCallback (list MangaParkManga))
  (m : list string) (g : option Policy) :
  title <> EmptyString ->
  exists rest,
    trace (Scraper.search Document readHtml select_search toLocaleString
             function_text (SearchUrl.QueryString title)
             SearchUrl.no_filters callback
             {| memo := m; interception := g; trace := [] |})
    = ReadHtml ("https://v2.mangapark.net/search?q=" ++
                JsText.encodeURIComponent title ++
                "&orderby=views_a&st-ss=0&page=1") None :: rest.
Proof.
  intros Hne. destruct title as [|c r]; [contradiction|].
  unfold Scraper.search.
  assert (Hurl : SearchUrl.search_url function_text
                   (SearchUrl.QueryString (String c r)) SearchUrl.no_filters
                 = "https://v2.mangapark.net/search?q=" ++
                   JsText.encodeURIComponent (String c r) ++
                   "&orderby=views_a&st-ss=0&page=1").
  { reflexivity. }
  rewrite Hurl.
  generalize ("https://v2.mangapark.net/search?q=" ++
              JsText.encodeURIComponent (String c r) ++
              "&orderby=views_a&st-ss=0&page=1").
  intros url.
  unfold search.
  change (search_guard (SearchUrl.page SearchUrl.no_filters))
    with FetchResults.
  cbn iota.
  unfold_effects. run_cases; cbn; eexists; reflexivity.
Qed.

(** X25. What [getLatestUpdates] does once [page] is not below 1, for a
    callback that returns: it fetches the address of the page; when the
    fetch fails the caller gets the reason as it is; otherwise the
    caller gets one record for each [div.d-flex.flex-row.item], in
    document order. [memo] is not touched. *)
Theorem getLatestUpdates_delivers_records (page : jsval)
  (callback : MangaCallback (list LatestPage.MangaParkLatestHotManga))
  (w : world (list LatestPage.MangaParkLatestHotManga)) :
  lt_number page (JsNumber.of_Z 1) = false ->
  (forall o, callback o = None) ->
  let url := "https://v2.mangapark.net/latest/" ++ template page in
  Scraper.getLatestUpdates Document readHtml select_latest (Some page)
    callback w =
  {| memo := memo w;
     interception := interception w;
     trace :=
       (trace w ++
        match readHtml url with
        | inl e =>
            [ReadHtml url (Some getLatestUpdates_policy);
             Callback (Failure e); Settle (Failure e)]
        | inr doc =>
            let mangas := map LatestPage.latest_record (select_latest doc) in
            [ReadHtml url (Some getLatestUpdates_policy);
             Callback (Success mangas); Settle (Success mangas)]
        end)%list |}.
Proof.
  intros Hlt Hcb url.
  unfold Scraper.getLatestUpdates, getLatestUpdates,
    LatestPage.latest_extract.
  rewrite Hlt. fold url. clearbody url.
  unfold_effects. cbn -[getLatestUpdates_policy].
  destruct (readHtml url) as [e | doc]; cbn -[getLatestUpdates_policy].
  - rewrite Hcb. cbn -[getLatestUpdates_policy].
    rewrite <- !app_assoc. reflexivity.
  - rewrite Hcb. cbn -[getLatestUpdates_policy].
    rewrite <- !app_assoc. reflexivity.
Qed.


(** X27. Only [search] writes the module variable [memo]: whatever the
    host does and whatever the callback does, [getPages],
    [getMangaMeta] and [getLatestUpdates] leave it as they find it. *)
Theorem only_search_writes_memo (pup : Puppeteer (list string))
  (pup' : Puppeteer string) (url : option string) (arg : option jsval)
  (on_pages : MangaCallback (list string))
  (on_meta : MangaCallback MetaPage.MangaParkMeta)
  (on_latest : MangaCallback (list LatestPage.MangaParkLatestHotManga))
  (m : list string) (g : option Policy) :
  memo (getPages options pup url on_pages
          {| memo := m; interception := g; trace := [] |}) = m /\
  memo (Scraper.getMangaMeta load toLocaleString options pup' url on_meta
          {| memo := m; interception := g; trace := [] |}) = m /\
  memo (Scraper.getLatestUpdates Document readHtml select_latest arg
          on_latest {| memo := m; interception := g; trace := [] |}) = m.
Proof.
  split; [|split].
  - unfold getPages, getPages_script. unfold_effects.
    run_cases; reflexivity.
  - unfold Scraper.getMangaMeta, getMangaMeta, getMangaMeta_script.
    unfold_effects.
    generalize (fun html => MetaPage.meta_extract toLocaleString (load html)).
    intros extract_meta.
    run_cases; reflexivity.
  - unfold Scraper.getLatestUpdates, getLatestUpdates. unfold_effects.
    generalize (fun doc => LatestPage.latest_extract (select_latest doc)).
    intros extract_latest.
    run_cases; reflexivity.
Qed.

End MethodProperties.

Section MethodWitnesses.

Import JsString JsText JsValue Interception Effects Browser MangaPark Adapter.
Import Examples Hosts Pages Listings.

Lemma genre_names_sent_as_slugs_witness :
  SearchUrl.genres_param v8_function_text "genres"
    (Some ["Action"; "Slice of life"])
  = "genres=action,slice-of-life".
Proof.
  apply (genre_names_sent_as_slugs v8_function_text "genres"
           ["Action"; "Slice of life"]).
  - discriminate.
  - apply Forall_cons; [|apply Forall_cons; [|apply Forall_nil]];
      cbn; repeat (first [left; reflexivity | right]).
Defined.

Lemma mainTitle_drops_last_word_witness :
  MetaPage.mainTitle "Berserk Manga" = "Berserk".
Proof.
  apply (mainTitle_drops_last_word ["Berserk"; "Manga"]).
  - discriminate.
  - apply Forall_cons; [|apply Forall_cons; [|apply Forall_nil]];
      cbn; intros H;
      repeat (destruct H as [H | H]; [discriminate H|]); exact H.
Defined.

Lemma last_block_of_a_source_wins_witness :
  List.length (MetaPage.sourceChapters (MetaPage.volumes berserk_page))
  = 6%nat /\
  nth 1 (MetaPage.sourceChapters (MetaPage.volumes berserk_page)) []
  = MetaPage.volume_chapters (block "Version Fox" "ch.3").
Proof.
  apply (last_block_of_a_source_wins (MetaPage.volumes berserk_page) 1).
  lia.
Defined.

Lemma latest_genres_are_the_names_listed_witness :
  LatestPage.genres (LatestPage.latest_record latest_item)
  = ["Action"; "Slice of life"].
Proof.
  apply (latest_genres_are_the_names_listed latest_item
           " Action, Slice of life " ["Action"; "Slice of life"]).
  - reflexivity.
  - reflexivity.
  - discriminate.
  - apply Forall_cons; [|apply Forall_cons; [|apply Forall_nil]];
      cbn; intros H;
      repeat (destruct H as [H | H]; [discriminate H|]); exact H.
Defined.

Lemma search_by_title_address_witness :
  exists rest,
    trace (Scraper.search SearchDocument (fun _ => inr empty_document)
             (fun d => d) plain_locale v8_function_text
             (SearchUrl.QueryString "Berserk")
             SearchUrl.no_filters no_callback
             (initial (list MangaParkManga)))
    = ReadHtml search_url None :: rest.
Proof.
  apply (search_by_title_address SearchDocument
           (fun _ => inr empty_document) (fun d => d) plain_locale
           v8_function_text "Berserk" no_callback [] None).
  discriminate.
Defined.

Lemma getLatestUpdates_delivers_records_witness :
  Scraper.getLatestUpdates (list LatestPage.LatestItem) one_item_site
    (fun d => d) (Some (JNumber (JsNumber.of_Z 2))) no_callback
    (initial (list LatestPage.MangaParkLatestHotManga))
  = {| memo := [];
       interception := None;
       trace :=
         [ ReadHtml "https://v2.mangapark.net/latest/2"
             (Some getLatestUpdates_policy);
           Callback (Success [LatestPage.latest_record latest_item]);
           Settle (Success [LatestPage.latest_record latest_item]) ] |}.
Proof.
  apply (getLatestUpdates_delivers_records (list LatestPage.LatestItem)
           one_item_site (fun d => d) (JNumber (JsNumber.of_Z 2))
           no_callback (initial (list LatestPage.MangaParkLatestHotManga))).
  - reflexivity.
  - reflexivity.
Defined.


End MethodWitnesses.

Section FilterProperties.

Import JsString JsText JsValue SearchUrl.

(** X28. The stars of a [rating] filter never reach the address: with
    any of the star labels the address holds the bare argument
    [rating=], so two searches that differ in the stars only ask for the
    same address. *)
Theorem rating_filter_value_not_sent (function_text : string -> string)
  (query : MangaSearch) (filters : MangaParkOptions) (n : nat) :
  rating filters = Some (Stars n) ->
  In "rating=" (non_empty (search_args function_text query filters)) /\
  forall n',
    search_url function_text query filters =
    search_url function_text query
      {| genres := genres filters;
         status := status filters;
         rating := Some (Stars n');
         type := type filters;
         yearReleased := yearReleased filters;
         orderBy := orderBy filters;
         page := page filters |}.
Proof.
  intros Hr. split.
  - unfold non_empty. apply filter_In. split; [|reflexivity].
    unfold search_args. rewrite Hr.
    right. right. right. left. reflexivity.
  - intros n'. unfold search_url, search_args. cbn [rating genres status
      type yearReleased orderBy page]. rewrite Hr. reflexivity.
Qed.

Lemma rating_filter_value_not_sent_witness :
  In "rating="
    (non_empty
       (search_args Examples.v8_function_text (QueryString "Berserk")
          {| genres := None; status := None; rating := Some (Stars 5);
             type := None; yearReleased := None; orderBy := None;
             page := JUndefined |})) /\
  forall n',
    search_url Examples.v8_function_text (QueryString "Berserk")
      {| genres := None; status := None; rating := Some (Stars 5);
         type := None; yearReleased := None; orderBy := None;
         page := JUndefined |}
    = search_url Examples.v8_function_text (QueryString "Berserk")
        {| genres := None; status := None; rating := Some (Stars n');
           type := None; yearReleased := None; orderBy := None;
           page := JUndefined |}.
Proof.
  apply (rating_filter_value_not_sent Examples.v8_function_text
           (QueryString "Berserk")
           {| genres := None; status := None; rating := Some (Stars 5);
              type := None; yearReleased := None; orderBy := None;
              page := JUndefined |} 5).
  reflexivity.
Defined.

End FilterProperties.

Section MetaRecordProperties.

Import JsString JsText MetaPage Examples Pages.

Lemma lower_char_idempotent (c : ascii) :
  lower_char (lower_char c) = lower_char c.
Proof.
  destruct c as [[|] [|] [|] [|] [|] [|] [|] [|]]; vm_compute; reflexivity.
Qed.

Lemma toLowerCase_idempotent (s : string) :
  toLowerCase (toLowerCase s) = toLowerCase s.
Proof.
  induction s as [|c r IH]; cbn.
  - reflexivity.
  - rewrite lower_char_idempotent, IH. reflexivity.
Qed.

Lemma non_empty_has_no_empty (items : list string) :
  ~ In EmptyString (non_empty items).
Proof.
  unfold non_empty. intros Hin. apply filter_In in Hin.
  destruct Hin as [_ H]. discriminate H.
Qed.

(** X29. In a record [getMangaMeta] delivers, the type and the status
    are in lower case, the alternative titles and the artists hold no
    empty text, the recommended source is never the empty text, and
    there is one author for each child of the author cells, empty texts
    included. *)
Theorem meta_record_shape (toLocaleString : JsNumber.number -> string)
  (doc : MetaDocument) (meta : MangaParkMeta) :
  meta_extract toLocaleString doc = inr meta ->
  toLowerCase (type meta) = type meta /\
  toLowerCase (status meta) = status meta /\
  ~ In EmptyString (title_alt meta) /\
  ~ In EmptyString (artists meta) /\
  recentlyUpdated (chapters meta) <> Some EmptyString /\
  List.length (authors meta) = List.length (author_children doc).
Proof.
  unfold meta_extract, mangaType.
  destruct (nth_error _ 1) as [t|]; [|discriminate].
  intros H. inversion H. cbn.
  repeat split.
  - apply toLowerCase_idempotent.
  - apply toLowerCase_idempotent.
  - apply non_empty_has_no_empty.
  - apply non_empty_has_no_empty.
  - unfold recommendedSource.
    destruct (toLowerCase (drop 8 (stream_label doc))); discriminate.
  - apply length_map.
Qed.

Lemma meta_record_shape_witness :
  match meta_extract plain_locale berserk_page with
  | inr meta =>
      toLowerCase (type meta) = type meta /\
      toLowerCase (status meta) = status meta /\
      ~ In EmptyString (title_alt meta) /\
      ~ In EmptyString (artists meta) /\
      recentlyUpdated (chapters meta) <> Some EmptyString /\
      List.length (authors meta) = List.length (author_children berserk_page)
  | inl _ => False
  end.
Proof.
  destruct (meta_extract plain_locale berserk_page) as [e | meta] eqn:Hm.
  - discriminate Hm.
  - apply (meta_record_shape plain_locale berserk_page meta Hm).
Defined.

End MetaRecordProperties.
